(** * streamparse/cli/common.py: option parsing and option resolution

    A shallow embedding of [_StoreDictAction], [option_alias] and
    [resolve_options], and the properties of them that the specification
    of the module states.

    Python objects are values of the type [value]: [None], booleans,
    integers, floats, strings, lists and dicts, which is what config.json
    and a safe YAML load produce.  A [dict] keeps its entries in
    insertion order, as Python's does.  An exception is the [Raise]
    outcome of a [result].  What the module imports is taken as a
    parameter: [get_storm_workers] of streamparse.util and the loaders
    of ruamel.yaml.

    What Python's Unicode tables decide, [str.lower], is a parameter too
    (the class [StrMethods]); the sample inputs are ASCII and use the
    lowercasing of the letters A-Z.

    Limits of the model: a character of a string is one [ascii]; a key
    that was [True] or [1.0] is kept as the integer it equals; two NaN
    keys count as equal. *)

From Stdlib Require Import List String Ascii ZArith Bool Lia.
From Stdlib Require Import Floats.SpecFloat.
Import ListNotations.
Open Scope string_scope.
Open Scope Z_scope.

Set Warnings "-register-all".

(** ** Python values *)

(** Keys of a dictionary: the hashable scalars.  [True] and [False] are
    the keys [1] and [0], and a float with an integral value is the key
    of that integer, since Python hashes and compares them alike. *)
Inductive key : Type :=
| KNone
| KInt (z : Z)
| KFloat (f : spec_float)
| KStr (s : string).

(** The data that config.json, safe YAML and a topology's [config]
    hold.  A float is the IEEE value in the Standard Library's
    [spec_float]; a character of a [VStr] is one [ascii]. *)
Inductive value : Type :=
| VNone
| VBool (b : bool)
| VInt (z : Z)
| VFloat (f : spec_float)
| VStr (s : string)
| VList (l : list value)
| VDict (d : list (key * value)).

Definition dict : Type := list (key * value).

Inductive exn : Type :=
| KeyError
| TypeError
| ValueError
| AttributeError
| ArgumentError
| ExternalError (msg : string).

Inductive result (A : Type) : Type :=
| Ok (a : A)
| Raise (e : exn).

Arguments Ok {A} a.
Arguments Raise {A} e.

Definition bind {A B : Type} (m : result A) (f : A -> result B) : result B :=
  match m with
  | Ok a => f a
  | Raise e => Raise e
  end.

Notation "x <- m ;; k" := (bind m (fun x => k))
  (at level 61, m at next level, right associativity).

Coercion KStr : string >-> key.

(** ** Scalars *)

Definition float_eqb (a b : spec_float) : bool :=
  match a, b with
  | S754_zero s, S754_zero t => Bool.eqb s t
  | S754_infinity s, S754_infinity t => Bool.eqb s t
  | S754_nan, S754_nan => true
  | S754_finite s m e, S754_finite t n g =>
      Bool.eqb s t && Pos.eqb m n && Z.eqb e g
  | _, _ => false
  end.

Definition key_eqb (a b : key) : bool :=
  match a, b with
  | KNone, KNone => true
  | KInt x, KInt y => Z.eqb x y
  | KFloat f, KFloat g => float_eqb f g
  | KStr s, KStr t => String.eqb s t
  | _, _ => false
  end.

(** The integer a float is equal to, when there is one. *)
Definition float_int_value (f : spec_float) : option Z :=
  match f with
  | S754_zero _ => Some 0
  | S754_finite s m e =>
      let sign := if s then -1 else 1 in
      if 0 <=? e then Some (sign * (Z.pos m * 2 ^ e))
      else if Z.pos m mod 2 ^ (- e) =? 0
           then Some (sign * (Z.pos m / 2 ^ (- e)))
           else None
  | _ => None
  end.

(** [hash(v)]: [None] for the unhashable list and dict. *)
Definition to_key (v : value) : option key :=
  match v with
  | VNone => Some KNone
  | VBool b => Some (KInt (if b then 1 else 0))
  | VInt z => Some (KInt z)
  | VFloat f =>
      match float_int_value f with
      | Some z => Some (KInt z)
      | None => Some (KFloat f)
      end
  | VStr s => Some (KStr s)
  | VList _ | VDict _ => None
  end.

Definition key_to_value (k : key) : value :=
  match k with
  | KNone => VNone
  | KInt z => VInt z
  | KFloat f => VFloat f
  | KStr s => VStr s
  end.

(** [bool(v)] *)
Definition truthy (v : value) : bool :=
  match v with
  | VNone => false
  | VBool b => b
  | VInt z => negb (z =? 0)
  | VFloat (S754_zero _) => false
  | VFloat _ => true
  | VStr s => negb (String.eqb s "")
  | VList [] => false
  | VList _ => true
  | VDict [] => false
  | VDict _ => true
  end.

(** [a or b] *)
Definition py_or (a b : value) : value := if truthy a then a else b.

(** [v is None] *)
Definition is_none (v : value) : bool :=
  match v with VNone => true | _ => false end.

(** [isinstance(v, int)]: [bool] is a subclass of [int]. *)
Definition isinstance_int (v : value) : bool :=
  match v with VInt _ | VBool _ => true | _ => false end.

(** [isinstance(v, str)] *)
Definition isinstance_str (v : value) : bool :=
  match v with VStr _ => true | _ => false end.

(** [v == z] for an integer [z] *)
Definition eq_int (v : value) (z : Z) : bool :=
  match v with
  | VInt y => y =? z
  | VBool b => (if b then 1 else 0) =? z
  | VFloat f =>
      match float_int_value f with Some y => y =? z | None => false end
  | _ => false
  end.

(** [v == s] for a string [s] *)
Definition eq_str (v : value) (s : string) : bool :=
  match v with VStr t => String.eqb t s | _ => false end.

(** [len(v)] *)
Definition py_len (v : value) : result Z :=
  match v with
  | VStr s => Ok (Z.of_nat (String.length s))
  | VList l => Ok (Z.of_nat (List.length l))
  | VDict d => Ok (Z.of_nat (List.length d))
  | _ => Raise TypeError
  end.

(** ** Strings *)

(** The methods of [str] whose result depends on the Unicode tables of
    the interpreter: they are taken as given. *)
Class StrMethods : Type := {
  str_lower : string -> string   (* [s.lower()] *)
}.

(** The lowercasing of the letters A-Z, which is what [s.lower()] does to
    a string of ASCII characters. *)
Definition lower_ascii (c : ascii) : ascii :=
  let n := nat_of_ascii c in
  if ((65 <=? n) && (n <=? 90))%nat then ascii_of_nat (n + 32) else c.

Fixpoint lower (s : string) : string :=
  match s with
  | EmptyString => EmptyString
  | String c r => String (lower_ascii c) (lower r)
  end.

(** [s.split(sep)] for a one-character separator: never the empty list. *)
Fixpoint split (sep : ascii) (s : string) : list string :=
  match s with
  | EmptyString => [EmptyString]
  | String c r =>
      if Ascii.eqb c sep then EmptyString :: split sep r
      else match split sep r with
           | h :: t => String c h :: t
           | [] => [String c EmptyString]
           end
  end.

(** [s.split(sep, 1)]: cut at the first occurrence of [sep] only. *)
Fixpoint split1 (sep : ascii) (s : string) : list string :=
  match s with
  | EmptyString => [EmptyString]
  | String c r =>
      if Ascii.eqb c sep then [EmptyString; r]
      else match split1 sep r with
           | h :: t => String c h :: t
           | [] => [String c EmptyString]
           end
  end.

(** [sep.join(parts)] over values: every part has to be a [str]. *)
Fixpoint join (sep : string) (parts : list value) : result string :=
  match parts with
  | [] => Ok EmptyString
  | [VStr s] => Ok s
  | VStr s :: rest => r <- join sep rest ;; Ok (s ++ sep ++ r)
  | _ :: _ => Raise TypeError
  end.

(** The characters of a string, as the iteration over it yields them. *)
Fixpoint chars (s : string) : list string :=
  match s with
  | EmptyString => []
  | String c r => String c EmptyString :: chars r
  end.

(** [c in s] for a character [c] *)
Fixpoint contains (c : ascii) (s : string) : bool :=
  match s with
  | EmptyString => false
  | String a r => Ascii.eqb a c || contains c r
  end.

(** ** Dictionaries *)

(** [d.get(k)] as an option *)
Fixpoint lookup (d : dict) (k : key) : option value :=
  match d with
  | [] => None
  | (k', v) :: r => if key_eqb k' k then Some v else lookup r k
  end.

(** [k in d] *)
Definition mem (k : key) (d : dict) : bool :=
  match lookup d k with Some _ => true | None => false end.

(** [d.get(k, default)] *)
Definition get_default (d : dict) (k : key) (default : value) : value :=
  match lookup d k with Some v => v | None => default end.

(** [d.get(k)] *)
Definition get (d : dict) (k : key) : value := get_default d k VNone.

(** [d[k]] *)
Definition getitem (d : dict) (k : key) : result value :=
  match lookup d k with Some v => Ok v | None => Raise KeyError end.

(** [d[k] = v]: an existing entry keeps its place, a new one goes last. *)
Fixpoint setitem (d : dict) (k : key) (v : value) : dict :=
  match d with
  | [] => [(k, v)]
  | (k', v') :: r =>
      if key_eqb k' k then (k', v) :: r else (k', v') :: setitem r k v
  end.

(** [d.setdefault(k, v)] *)
Definition setdefault (d : dict) (k : key) (v : value) : dict :=
  if mem k d then d else setitem d k v.

(** [d.update(other)] for a dict [other] *)
Definition update (d other : dict) : dict :=
  fold_left (fun acc kv => setitem acc (fst kv) (snd kv)) other d.

(** One element of an iterable given to [dict.update]: a sequence of
    length two whose first item is hashable. *)
Definition as_pair (e : value) : result (key * value) :=
  let two (items : list value) :=
    match items with
    | [a; b] =>
        match to_key a with
        | Some k => Ok (k, b)
        | None => Raise TypeError
        end
    | _ => Raise ValueError
    end in
  match e with
  | VList l => two l
  | VStr s => two (map VStr (chars s))
  | VDict d => two (map (fun kv => key_to_value (fst kv)) d)
  | _ => Raise TypeError
  end.

Fixpoint update_pairs (d : dict) (items : list value) : result dict :=
  match items with
  | [] => Ok d
  | e :: rest => kv <- as_pair e ;; update_pairs (setitem d (fst kv) (snd kv)) rest
  end.

(** [d.update(other)] for any value [other]: a dict is merged, another
    iterable has to yield key/value pairs. *)
Definition dict_update (d : dict) (other : value) : result dict :=
  match other with
  | VDict o => Ok (update d o)
  | VList l => update_pairs d l
  | VStr s => update_pairs d (map VStr (chars s))
  | _ => Raise TypeError
  end.

(** [v.get(k)] on any value: only a dict has the method. *)
Definition py_get (v : value) (k : key) : result value :=
  match v with
  | VDict d => Ok (get d k)
  | _ => Raise AttributeError
  end.

(** No key occurs twice, as in every Python dict. *)
Fixpoint wf_dict (d : dict) : bool :=
  match d with
  | [] => true
  | (k, _) :: r => negb (mem k r) && wf_dict r
  end.

Definition is_str_key (k : key) : bool :=
  match k with KStr _ => true | _ => false end.

Definition str_keys (d : dict) : bool := forallb (fun kv => is_str_key (fst kv)) d.

(** [v[k]] for a string key [k]: of the values here only a dict can be
    indexed by a string. *)
Definition py_getitem (v : value) (k : string) : result value :=
  match v with
  | VDict d => getitem d k
  | _ => Raise TypeError
  end.

(** ** [_StoreDictAction] *)

(** The attributes [argparse.Action.__init__] stores. *)
Record Action : Type := mkAction {
  option_strings : value;
  dest : string;
  nargs : value;
  const : value;
  default : value;
  type : option (string -> string);
  choices : value;
  required : value;
  help : value;
  metavar : value
}.

(** [_StoreDictAction.__init__] *)
Definition init (option_strings : value) (dest : string)
    (nargs const default : value) (type : option (string -> string))
    (choices required help metavar : value) : result Action :=
  if eq_int nargs 0 then Raise ValueError
  else if negb (is_none const) && negb (eq_str nargs "?") then Raise ValueError
  else Ok (mkAction option_strings dest nargs const default type
                    choices required help metavar).

(** An [argparse.Namespace]: its attributes in the order they were set. *)
Definition namespace : Type := list (string * value).

Fixpoint getattr (ns : namespace) (name : string) (default : value) : value :=
  match ns with
  | [] => default
  | (n, v) :: r => if String.eqb n name then v else getattr r name default
  end.

Fixpoint setattr (ns : namespace) (name : string) (v : value) : namespace :=
  match ns with
  | [] => [(name, v)]
  | (n, w) :: r =>
      if String.eqb n name then (n, v) :: r else (n, w) :: setattr r name v
  end.

(** [items[key] = v] on a copy of the attribute: of the values here only
    a dict takes a string subscript. *)
Definition store_item (items : value) (k : string) (v : value) : result value :=
  match items with
  | VDict d => Ok (VDict (setitem d k v))
  | _ => Raise TypeError
  end.

(** [key, val = values.split("=", 1)] *)
Definition split_key_val (values : value) : result (string * string) :=
  match values with
  | VStr s =>
      match split1 "="%char s with
      | [k; v] => Ok (k, v)
      | _ => Raise ValueError
      end
  | _ => Raise AttributeError
  end.

Section StoreDict.

(** ruamel.yaml: [version_info < (0, 15)] and the two safe loaders. *)
Variable yaml_before_0_15 : bool.
Variable safe_load : string -> result value.
Variable yml_load : string -> result value.

Definition yaml_load (val : string) : result value :=
  if yaml_before_0_15 then safe_load val else yml_load val.

(** [_StoreDictAction.__call__]: the namespace it leaves and how it
    ends.  The namespace keeps the empty dict of the first statement
    when a later one raises. *)
Definition call (self : Action) (ns : namespace) (values : value)
  : namespace * result unit :=
  let ns :=
    if is_none (getattr ns (dest self) VNone)
    then setattr ns (dest self) (VDict []) else ns in
  let items := getattr ns (dest self) VNone in
  let body :=
    kv <- split_key_val values ;;
    y <- yaml_load (snd kv) ;;
    store_item items (fst kv) y in
  match body with
  | Ok items => (setattr ns (dest self) items, Ok tt)
  | Raise e => (ns, Raise e)
  end.

(** argparse's [_get_value]: the flag's [type] function applied to the
    argument string. *)
Definition get_value (self : Action) (arg : string) : value :=
  match type self with
  | Some convert => VStr (convert arg)
  | None => VStr arg
  end.

(** argparse's [_get_values], for an action without [choices]: the
    value an occurrence of the flag hands to the action, from the
    argument strings the occurrence took.  An occurrence of a flag with
    [nargs] "?" and no argument gives [const], through [type] when it is
    a string; one argument under [nargs] [None] or "?" gives the
    converted string; every other [nargs] gives a list. *)
Definition get_values (self : Action) (arg_strings : list string) : value :=
  let optional := eq_str (nargs self) "?" in
  let no_strings := match arg_strings with [] => true | _ => false end in
  let one_string := match arg_strings with [_] => true | _ => false end in
  if no_strings && optional then
    let value :=
      if truthy (option_strings self) then const self else default self in
    match value with
    | VStr s => get_value self s
    | _ => value
    end
  else if no_strings && eq_str (nargs self) "*"
          && negb (truthy (option_strings self)) then
    if negb (is_none (default self)) then default self else VList []
  else if one_string && (is_none (nargs self) || optional) then
    match arg_strings with
    | arg :: _ => get_value self arg
    | [] => VList []
    end
  else if eq_str (nargs self) "==SUPPRESS==" then VStr "==SUPPRESS=="
  else VList (map (get_value self) arg_strings).


End StoreDict.

(** [option_alias(option)]: the function it returns, applied to [val]. *)
Definition option_alias (option : string) : string -> string :=
  fun val => option ++ "=" ++ val.

(** ** [resolve_options] *)

Definition VIRTUALENV_OPTIONS : list string :=
  ["install_virtualenv"; "use_virtualenv"; "virtualenv_flags";
   "virtualenv_root"; "virtualenv_name"].

(** A topology class, of which [resolve_options] reads [config] only. *)
Record topology_class : Type := { config : value }.

(** Lines 292-298: set topology.python.path. *)
Definition python_path_step (env_config : dict) (topology_name : string)
    (storm_options : dict) : result dict :=
  if truthy (get_default env_config "use_virtualenv" (VBool true)) then
    root <- getitem env_config "virtualenv_root" ;;
    python_path <- join "/" [root; VStr topology_name; VStr "bin"; VStr "python"] ;;
    Ok (setitem storm_options "topology.python.path" (VStr python_path))
  else Ok storm_options.

(** Lines 300-313: logging options from the environment config. *)
Definition logging_step {Py : StrMethods} (env_config : dict)
    (storm_options : dict) : result dict :=
  let log_config := get_default env_config "log" (VDict []) in
  path <- py_get log_config "path" ;;
  let log_path := py_or path (get env_config "log_path") in
  file <- py_get log_config "file" ;;
  let log_file := py_or file (get env_config "log_file") in
  let storm_options :=
    if truthy log_path
    then setitem storm_options "pystorm.log.path" log_path else storm_options in
  let storm_options :=
    if truthy log_file
    then setitem storm_options "pystorm.log.file" log_file else storm_options in
  max_bytes <- py_get log_config "max_bytes" ;;
  storm_options <-
    (if isinstance_int max_bytes
     then v <- py_getitem log_config "max_bytes" ;;
          Ok (setitem storm_options "pystorm.log.max_bytes" v)
     else Ok storm_options) ;;
  backup_count <- py_get log_config "backup_count" ;;
  storm_options <-
    (if isinstance_int backup_count
     then v <- py_getitem log_config "backup_count" ;;
          Ok (setitem storm_options "pystorm.log.backup_count" v)
     else Ok storm_options) ;;
  level <- py_get log_config "level" ;;
  if isinstance_str level
  then v <- py_getitem log_config "level" ;;
       match v with
       | VStr s =>
           Ok (setitem storm_options "pystorm.log.level" (VStr (str_lower s)))
       | _ => Raise AttributeError
       end
  else Ok storm_options.

(** Lines 315-318: copy the virtualenv options that are present. *)
Definition virtualenv_step (env_config : dict) (storm_options : dict) : dict :=
  fold_left
    (fun storm_options venv_option =>
       match lookup env_config (KStr venv_option) with
       | Some v => setitem storm_options venv_option v
       | None => storm_options
       end)
    VIRTUALENV_OPTIONS storm_options.

(** Lines 329-331: log level debug when topology.debug is set. *)
Definition debug_step (storm_options : dict) : dict :=
  if truthy (get_default storm_options "topology.debug" (VBool false))
  then setitem storm_options "pystorm.log.level" (VStr "debug")
  else storm_options.

Section Resolve.

Context {Py : StrMethods}.

(** [streamparse.util.get_storm_workers]: the lookup of the worker
    hosts at Nimbus, which may fail. *)
Variable get_storm_workers : dict -> result value.

(** Lines 334-344: the worker list and the number of workers. *)
Definition workers_list_step (env_config : dict) (local_only : bool)
    (storm_options : dict) : result (dict * Z) :=
  if negb local_only then
    storm_options <-
      (if negb (truthy (get storm_options "storm.workers.list")) then
         workers <- get_storm_workers env_config ;;
         Ok (setitem storm_options "storm.workers.list" workers)
       else
         current <- getitem storm_options "storm.workers.list" ;;
         match current with
         | VStr s =>
             Ok (setitem storm_options "storm.workers.list"
                   (VList (map VStr (split ","%char s))))
         | _ => Ok storm_options
         end) ;;
    workers <- getitem storm_options "storm.workers.list" ;;
    num_storm_workers <- py_len workers ;;
    Ok (storm_options, num_storm_workers)
  else
    Ok (setitem storm_options "storm.workers.list" (VList []), 1).

(** Lines 345-348: a count that is still unset gets the number of
    workers. *)
Definition default_count (k : string) (num_storm_workers : Z)
    (storm_options : dict) : dict :=
  if is_none (get storm_options k)
  then setitem storm_options k (VInt num_storm_workers)
  else storm_options.

(** Lines 286-327: the environment tier, then the topology tier, then
    the CLI tier. *)
Definition environment_tier (env_config : dict) (topology_name : string)
  : result dict :=
  let storm_options := [] in
  storm_options <-
    dict_update storm_options (get_default env_config "options" (VDict [])) ;;
  storm_options <- python_path_step env_config topology_name storm_options ;;
  storm_options <- logging_step env_config storm_options ;;
  let storm_options := virtualenv_step env_config storm_options in
  Ok (setitem storm_options "sudo_user" (get_default env_config "user" VNone)).

Definition merged_tiers (cli_options : value) (env_config : dict)
    (topology_class : topology_class) (topology_name : string) : result dict :=
  storm_options <- environment_tier env_config topology_name ;;
  storm_options <- dict_update storm_options (config topology_class) ;;
  dict_update storm_options (py_or cli_options (VDict [])).

Definition resolve_options (cli_options : value) (env_config : dict)
    (topology_class : topology_class) (topology_name : string)
    (local_only : bool) : result dict :=
  storm_options <-
    merged_tiers cli_options env_config topology_class topology_name ;;
  let storm_options := debug_step storm_options in
  listed <- workers_list_step env_config local_only storm_options ;;
  let storm_options := fst listed in
  let num_storm_workers := snd listed in
  let storm_options :=
    default_count "topology.acker.executors" num_storm_workers storm_options in
  let storm_options :=
    default_count "topology.workers" num_storm_workers storm_options in
  Ok (setdefault storm_options "sudo_user" (VStr "root")).

End Resolve.

(** ** Vocabulary of the statements

    What each step of [resolve_options] writes under a given key,
    as a function of the inputs; the lemmas below tie each of these
    to the step it describes. *)

(** The options dict of the environment config, [{}] when there is none. *)
Definition options_of (env_config : dict) : option dict :=
  match get_default env_config "options" (VDict []) with
  | VDict o => Some o
  | _ => None
  end.

(** The dict an action finds under its destination: [{}] when the
    attribute is missing or [None]. *)
Definition options_dict (ns : namespace) (dest : string) : option dict :=
  match getattr ns dest VNone with
  | VNone => Some []
  | VDict d => Some d
  | _ => None
  end.


(** [k] is one of the strings of [names]. *)
Definition key_in (k : key) (names : list string) : bool :=
  existsb (fun n => key_eqb k (KStr n)) names.

(** The keys [logging_step] may write. *)
Definition log_keys : list string :=
  ["pystorm.log.path"; "pystorm.log.file"; "pystorm.log.max_bytes";
   "pystorm.log.backup_count"; "pystorm.log.level"].

(** A derived entry wins over the one already there. *)
Definition or_else (derived previous : option value) : option value :=
  match derived with
  | Some v => Some v
  | None => previous
  end.

(** What [logging_step] computes when [log_config] is the dict [l]. *)
Definition logging_options {Py : StrMethods} (l env_config storm_options : dict)
  : dict :=
  let log_path := py_or (get l "path") (get env_config "log_path") in
  let log_file := py_or (get l "file") (get env_config "log_file") in
  let d1 := if truthy log_path
            then setitem storm_options "pystorm.log.path" log_path
            else storm_options in
  let d2 := if truthy log_file
            then setitem d1 "pystorm.log.file" log_file else d1 in
  let d3 := if isinstance_int (get l "max_bytes")
            then setitem d2 "pystorm.log.max_bytes" (get l "max_bytes") else d2 in
  let d4 := if isinstance_int (get l "backup_count")
            then setitem d3 "pystorm.log.backup_count" (get l "backup_count")
            else d3 in
  match get l "level" with
  | VStr s => setitem d4 "pystorm.log.level" (VStr (str_lower s))
  | _ => d4
  end.

(** The entry [logging_step] writes under [k], if any, when [log_config]
    is the dict [l]. *)
Definition logging_default {Py : StrMethods} (l env_config : dict) (k : key)
  : option value :=
  if key_eqb k "pystorm.log.path" then
    let log_path := py_or (get l "path") (get env_config "log_path") in
    if truthy log_path then Some log_path else None
  else if key_eqb k "pystorm.log.file" then
    let log_file := py_or (get l "file") (get env_config "log_file") in
    if truthy log_file then Some log_file else None
  else if key_eqb k "pystorm.log.max_bytes" then
    if isinstance_int (get l "max_bytes") then Some (get l "max_bytes")
    else None
  else if key_eqb k "pystorm.log.backup_count" then
    if isinstance_int (get l "backup_count") then Some (get l "backup_count")
    else None
  else if key_eqb k "pystorm.log.level" then
    match get l "level" with
    | VStr s => Some (VStr (str_lower s))
    | _ => None
    end
  else None.

(** The entry [virtualenv_step] writes under [k], if any. *)
Definition virtualenv_default (env_config : dict) (k : key) : option value :=
  if key_in k VIRTUALENV_OPTIONS then lookup env_config k else None.

(** The entry [python_path_step] writes under [k], if any. *)
Definition python_path_default (env_config : dict) (topology_name : string)
    (k : key) : option value :=
  if key_eqb k "topology.python.path"
     && truthy (get_default env_config "use_virtualenv" (VBool true))
  then match lookup env_config "virtualenv_root" with
       | Some root =>
           match join "/" [root; VStr topology_name; VStr "bin"; VStr "python"] with
           | Ok python_path => Some (VStr python_path)
           | Raise _ => None
           end
       | None => None
       end
  else None.

(** The entry the environment tier puts under [k] on top of the
    environment's options, if any. *)
Definition environment_default {Py : StrMethods} (env_config : dict)
    (topology_name : string) (k : key) : option value :=
  if key_eqb k "sudo_user" then Some (get_default env_config "user" VNone)
  else
    or_else (virtualenv_default env_config k)
      (or_else
         (match get_default env_config "log" (VDict []) with
          | VDict l => logging_default l env_config k
          | _ => None
          end)
         (python_path_default env_config topology_name k)).

(** The keys a step after the merge writes, given the merged options. *)
Definition rewritten_after_merge (local_only : bool) (merged : dict) (k : key)
  : bool :=
  (key_eqb k "pystorm.log.level"
   && truthy (get_default merged "topology.debug" (VBool false)))
  || (key_eqb k "storm.workers.list"
      && (local_only
          || negb (truthy (get merged "storm.workers.list"))
          || isinstance_str (get merged "storm.workers.list")))
  || (key_eqb k "topology.acker.executors"
      && is_none (get merged "topology.acker.executors"))
  || (key_eqb k "topology.workers" && is_none (get merged "topology.workers")).

(** ** Sample inputs *)

(** The sample inputs are ASCII. *)
#[export] Instance ascii_strings : StrMethods := {| str_lower := lower |}.

(** A Nimbus that knows three worker hosts. *)
Definition three_workers (_ : dict) : result value :=
  Ok (VList [VStr "10.0.0.1"; VStr "10.0.0.2"; VStr "10.0.0.3"]).

(** A Nimbus that cannot be reached. *)
Definition no_nimbus (_ : dict) : result value :=
  Raise (ExternalError "nimbus").

(** An environment without a virtualenv. *)
Definition plain_env : dict := [(KStr "use_virtualenv", VBool false)].

(** A topology without a config of its own. *)
Definition no_config : topology_class := {| config := VDict [] |}.

(** CLI options that set a timeout. *)
Definition timeout_cli : dict :=
  [(KStr "topology.message.timeout.secs", VInt 60)].

(** The config of a topology that bounds its pending tuples. *)
Definition pending_config : dict :=
  [(KStr "topology.max.spout.pending", VInt 100)].

(** Options of an environment. *)
Definition sample_options : dict :=
  [(KStr "topology.message.timeout.secs", VInt 30);
   (KStr "topology.max.spout.pending", VInt 500);
   (KStr "topology.tick.tuple.freq.secs", VInt 5)].

(** An environment without a virtualenv that holds [sample_options]. *)
Definition sample_env : dict :=
  [(KStr "use_virtualenv", VBool false);
   (KStr "options", VDict sample_options)].

(** An environment that lists its workers in one string. *)
Definition listed_env (workers : string) : dict :=
  [(KStr "use_virtualenv", VBool false);
   (KStr "options", VDict [(KStr "storm.workers.list", VStr workers)])].

(** An environment with a log section. *)
Definition logging_env : dict :=
  [(KStr "use_virtualenv", VBool false);
   (KStr "log",
    VDict [(KStr "path", VStr "/var/log/storm");
           (KStr "level", VStr "INFO");
           (KStr "max_bytes", VInt 1000000)]);
   (KStr "log_file", VStr "wordcount.log")].

(** An environment whose options name the log path, with no log section. *)
Definition log_option_env : dict :=
  [(KStr "use_virtualenv", VBool false);
   (KStr "options",
    VDict [(KStr "pystorm.log.path", VStr "/var/log/storm")])].

(** A loader for the sample command lines: booleans and plain strings. *)
Definition scalar_load (s : string) : result value :=
  if String.eqb s "true" then Ok (VBool true)
  else if String.eqb s "false" then Ok (VBool false)
  else Ok (VStr s).

(** The action of the --option flag. *)
Definition option_action : Action :=
  mkAction (VList [VStr "-o"; VStr "--option"]) "options" VNone VNone VNone
           None VNone (VBool false) VNone VNone.

(** ** The flags stored through [_StoreDictAction] *)














(** The number of occurrences of a character in a string. *)
Fixpoint occurrences (c : ascii) (s : string) : nat :=
  match s with
  | EmptyString => O
  | String a r => if Ascii.eqb a c then S (occurrences c r) else occurrences c r
  end.

(** * Properties *)

(** ** Keys and dictionaries *)

Lemma float_eqb_eq (a b : spec_float) : float_eqb a b = true <-> a = b.
Proof.
  split.
  - destruct a, b; simpl; intro H; try discriminate; try reflexivity.
    + apply Bool.eqb_prop in H. now subst.
    + apply Bool.eqb_prop in H. now subst.
    + apply andb_true_iff in H as [H He].
      apply andb_true_iff in H as [Hs Hm].
      apply Bool.eqb_prop in Hs. apply Pos.eqb_eq in Hm. apply Z.eqb_eq in He.
      now subst.
  - intros ->. destruct b; simpl; trivial.
    + apply Bool.eqb_reflx.
    + apply Bool.eqb_reflx.
    + now rewrite Bool.eqb_reflx, Pos.eqb_refl, Z.eqb_refl.
Qed.

Lemma key_eqb_eq (a b : key) : key_eqb a b = true <-> a = b.
Proof.
  destruct a, b; simpl; split; intro H;
    try discriminate; try reflexivity.
  - apply Z.eqb_eq in H. now subst.
  - injection H as ->. apply Z.eqb_refl.
  - apply float_eqb_eq in H. now subst.
  - injection H as ->. now apply float_eqb_eq.
  - apply String.eqb_eq in H. now subst.
  - injection H as ->. apply String.eqb_refl.
Qed.

Lemma key_eqb_refl (k : key) : key_eqb k k = true.
Proof. now apply key_eqb_eq. Qed.

Lemma key_eqb_neq (a b : key) : a <> b -> key_eqb a b = false.
Proof.
  intro H. destruct (key_eqb a b) eqn:E; trivial.
  apply key_eqb_eq in E. contradiction.
Qed.

Lemma lookup_setitem_same (d : dict) (k : key) (v : value) :
  lookup (setitem d k v) k = Some v.
Proof.
  induction d as [|[k' v'] r IH]; simpl.
  - now rewrite key_eqb_refl.
  - destruct (key_eqb k' k) eqn:E; simpl; rewrite E; trivial.
Qed.

Lemma lookup_setitem_other (d : dict) (k k' : key) (v : value) :
  k <> k' -> lookup (setitem d k v) k' = lookup d k'.
Proof.
  intro Hne. induction d as [|[k0 v0] r IH]; simpl.
  - now rewrite key_eqb_neq.
  - destruct (key_eqb k0 k) eqn:E; simpl.
    + apply key_eqb_eq in E. subst k0. now rewrite key_eqb_neq.
    + now rewrite IH.
Qed.

Lemma lookup_update_absent (o d : dict) (k : key) :
  lookup o k = None -> lookup (update d o) k = lookup d k.
Proof.
  unfold update. revert d.
  induction o as [|[k0 v0] r IH]; intros d H; simpl in *; trivial.
  destruct (key_eqb k0 k) eqn:E; try discriminate.
  rewrite IH by assumption.
  apply lookup_setitem_other. intros ->. now rewrite key_eqb_refl in E.
Qed.

Lemma lookup_update_present (o d : dict) (k : key) (v : value) :
  wf_dict o = true -> lookup o k = Some v -> lookup (update d o) k = Some v.
Proof.
  unfold update. revert d.
  induction o as [|[k0 v0] r IH]; intros d Hwf H; simpl in *; try discriminate.
  apply andb_true_iff in Hwf as [Hk0 Hwf].
  destruct (key_eqb k0 k) eqn:E.
  - apply key_eqb_eq in E. subst k0. injection H as ->.
    unfold mem in Hk0. destruct (lookup r k) eqn:L; try discriminate.
    change (lookup (update (setitem d k v) r) k = Some v).
    rewrite lookup_update_absent by assumption.
    apply lookup_setitem_same.
  - now apply IH.
Qed.

Lemma str_keys_setitem (d : dict) (k : key) (v : value) :
  str_keys d = true -> is_str_key k = true -> str_keys (setitem d k v) = true.
Proof.
  unfold str_keys. intros Hd Hk.
  induction d as [|[k0 v0] r IH]; simpl in *.
  - now rewrite Hk.
  - apply andb_true_iff in Hd as [H0 Hr].
    destruct (key_eqb k0 k); simpl; rewrite H0; simpl; auto.
Qed.

Lemma str_keys_update (o d : dict) :
  str_keys d = true -> str_keys o = true -> str_keys (update d o) = true.
Proof.
  unfold update. revert d.
  induction o as [|[k0 v0] r IH]; intros d Hd Ho; simpl in *; trivial.
  unfold str_keys in Ho. simpl in Ho. apply andb_true_iff in Ho as [H0 Hr].
  apply IH; trivial. now apply str_keys_setitem.
Qed.

Lemma str_keys_setdefault (d : dict) (k : key) (v : value) :
  str_keys d = true -> is_str_key k = true ->
  str_keys (setdefault d k v) = true.
Proof.
  intros Hd Hk. unfold setdefault.
  destruct (mem k d); trivial. now apply str_keys_setitem.
Qed.

(** ** Splitting at the first separator *)

Lemma split1_append (sep : ascii) (k v : string) :
  contains sep k = false ->
  split1 sep (k ++ String sep v) = [k; v].
Proof.
  induction k as [|c r IH]; simpl; intro H.
  - now rewrite Ascii.eqb_refl.
  - apply orb_false_iff in H as [Hc Hr].
    rewrite Hc, (IH Hr). reflexivity.
Qed.

Lemma split1_no_sep (sep : ascii) (s : string) :
  contains sep s = false -> split1 sep s = [s].
Proof.
  induction s as [|c r IH]; simpl; intro H; trivial.
  apply orb_false_iff in H as [Hc Hr].
  now rewrite Hc, (IH Hr).
Qed.

(** ** The steps of [resolve_options], one by one *)

Ltac key_neq := let H := fresh in intro H; discriminate H.

Lemma bind_ok {A B : Type} (m : result A) (f : A -> result B) (b : B) :
  bind m f = Ok b -> exists a, m = Ok a /\ f a = Ok b.
Proof. destruct m as [a|e]; simpl; intro H; [eauto | discriminate]. Qed.

Ltac bind_inv H :=
  let a := fresh "x" in
  let Ha := fresh "E" in
  apply bind_ok in H; destruct H as [a [Ha H]].

Lemma lookup_debug_step_other (d : dict) (k : key) :
  k <> KStr "pystorm.log.level" -> lookup (debug_step d) k = lookup d k.
Proof.
  intro H. unfold debug_step.
  destruct (truthy _); trivial.
  apply lookup_setitem_other. congruence.
Qed.

Lemma lookup_debug_step_level (d : dict) :
  lookup (debug_step d) "pystorm.log.level" =
  if truthy (get_default d "topology.debug" (VBool false))
  then Some (VStr "debug") else lookup d "pystorm.log.level".
Proof.
  unfold debug_step. destruct (truthy _); trivial.
  apply lookup_setitem_same.
Qed.

Lemma lookup_default_count_other (k : string) (n : Z) (d : dict) (k' : key) :
  k' <> KStr k -> lookup (default_count k n d) k' = lookup d k'.
Proof.
  intro H. unfold default_count. destruct (is_none _); trivial.
  apply lookup_setitem_other. congruence.
Qed.

Lemma lookup_default_count_same (k : string) (n : Z) (d : dict) :
  lookup (default_count k n d) k =
  if is_none (get d k) then Some (VInt n) else lookup d k.
Proof.
  unfold default_count. destruct (is_none _); trivial.
  apply lookup_setitem_same.
Qed.

Lemma lookup_setdefault_other (d : dict) (k k' : key) (v : value) :
  k' <> k -> lookup (setdefault d k v) k' = lookup d k'.
Proof.
  intro H. unfold setdefault. destruct (mem k d); trivial.
  apply lookup_setitem_other. congruence.
Qed.

Lemma lookup_setdefault_same (d : dict) (k : key) (v : value) :
  lookup (setdefault d k v) k =
  match lookup d k with Some w => Some w | None => Some v end.
Proof.
  unfold setdefault, mem. destruct (lookup d k) eqn:E.
  - exact E.
  - apply lookup_setitem_same.
Qed.

Section ResolveSteps.

Context {Py : StrMethods}.

Variable get_storm_workers : dict -> result value.

Lemma lookup_workers_list_step_other env local d d' n (k : key) :
  workers_list_step get_storm_workers env local d = Ok (d', n) ->
  k <> KStr "storm.workers.list" -> lookup d' k = lookup d k.
Proof.
  unfold workers_list_step. intros H Hk.
  destruct local; simpl in H.
  - injection H as <- <-. apply lookup_setitem_other. congruence.
  - bind_inv H. bind_inv H. bind_inv H. injection H as <- <-.
    destruct (truthy (get d "storm.workers.list")); simpl in E.
    + bind_inv E. destruct x2; injection E as <-; trivial.
      apply lookup_setitem_other. congruence.
    + bind_inv E. injection E as <-.
      apply lookup_setitem_other. congruence.
Qed.

(** What a successful [resolve_options] went through. *)
Lemma resolve_options_inv cli env tc name local r :
  resolve_options get_storm_workers cli env tc name local = Ok r ->
  exists m d n,
    merged_tiers cli env tc name = Ok m /\
    workers_list_step get_storm_workers env local (debug_step m) = Ok (d, n) /\
    r = setdefault
          (default_count "topology.workers" n
             (default_count "topology.acker.executors" n d))
          "sudo_user" (VStr "root").
Proof.
  unfold resolve_options. intro H.
  bind_inv H. bind_inv H. destruct x0 as [d n]. simpl in H.
  injection H as <-. now exists x, d, n.
Qed.

(** The steps after the merge leave every other key alone. *)
Lemma lookup_after_merge cli env tc name local r m (k : key) :
  resolve_options get_storm_workers cli env tc name local = Ok r ->
  merged_tiers cli env tc name = Ok m ->
  k <> KStr "pystorm.log.level" ->
  k <> KStr "storm.workers.list" ->
  k <> KStr "topology.acker.executors" ->
  k <> KStr "topology.workers" ->
  forall v, lookup m k = Some v -> lookup r k = Some v.
Proof.
  intros H Hm K1 K2 K3 K4 v Hv.
  apply resolve_options_inv in H as (m' & d & n & Hm' & Hw & ->).
  rewrite Hm in Hm'. injection Hm' as <-.
  assert (L : lookup (default_count "topology.workers" n
               (default_count "topology.acker.executors" n d)) k = Some v).
  { rewrite !lookup_default_count_other by assumption.
    rewrite (lookup_workers_list_step_other _ _ _ _ _ _ Hw K2).
    now rewrite lookup_debug_step_other. }
  destruct (key_eqb k "sudo_user") eqn:E.
  - apply key_eqb_eq in E. subst k.
    rewrite lookup_setdefault_same. now rewrite L.
  - rewrite lookup_setdefault_other; trivial.
    intros ->. now rewrite key_eqb_refl in E.
Qed.

End ResolveSteps.

(** ** The environment tier *)

Lemma getitem_get (d : dict) (k : key) :
  get d k <> VNone -> getitem d k = Ok (get d k).
Proof.
  unfold getitem, get, get_default. destruct (lookup d k); trivial.
  intro H. now contradiction H.
Qed.

Lemma logging_step_dict {Py : StrMethods} (l env d : dict) :
  get_default env "log" (VDict []) = VDict l ->
  logging_step env d = Ok (logging_options l env d).
Proof.
  intro Hl. unfold logging_step, logging_options. rewrite Hl. simpl.
  destruct (isinstance_int (get l "max_bytes")) eqn:E1; simpl.
  - rewrite getitem_get by (intro H; rewrite H in E1; discriminate). simpl.
    destruct (isinstance_int (get l "backup_count")) eqn:E2; simpl.
    + rewrite getitem_get by (intro H; rewrite H in E2; discriminate). simpl.
      destruct (get l "level") eqn:E3; simpl; trivial.
      rewrite getitem_get by (rewrite E3; discriminate). now rewrite E3.
    + destruct (get l "level") eqn:E3; simpl; trivial.
      rewrite getitem_get by (rewrite E3; discriminate). now rewrite E3.
  - destruct (isinstance_int (get l "backup_count")) eqn:E2; simpl.
    + rewrite getitem_get by (intro H; rewrite H in E2; discriminate). simpl.
      destruct (get l "level") eqn:E3; simpl; trivial.
      rewrite getitem_get by (rewrite E3; discriminate). now rewrite E3.
    + destruct (get l "level") eqn:E3; simpl; trivial.
      rewrite getitem_get by (rewrite E3; discriminate). now rewrite E3.
Qed.

Lemma logging_step_ok {Py : StrMethods} (env d d' : dict) :
  logging_step env d = Ok d' ->
  exists l, get_default env "log" (VDict []) = VDict l /\
            d' = logging_options l env d.
Proof.
  intro H.
  destruct (get_default env "log" (VDict [])) eqn:E;
    try (unfold logging_step in H; rewrite E in H; discriminate H).
  exists d0. split; trivial.
  rewrite (logging_step_dict d0 env d E) in H. now injection H.
Qed.

Lemma key_in_cons (k : key) (n : string) (names : list string) :
  key_in k (n :: names) = false -> k <> KStr n /\ key_in k names = false.
Proof.
  unfold key_in. simpl. intro H. apply orb_false_iff in H as [H1 H2].
  split; trivial. intros ->. now rewrite key_eqb_refl in H1.
Qed.

Ltac split_key_in H :=
  repeat (let K := fresh "K" in apply key_in_cons in H as [K H]).

Lemma lookup_logging_options_other {Py : StrMethods} (l env d : dict) (k : key) :
  key_in k log_keys = false -> lookup (logging_options l env d) k = lookup d k.
Proof.
  intro H. split_key_in H. unfold logging_options.
  repeat match goal with
  | |- context [match ?x with _ => _ end] => destruct x
  end;
  repeat (rewrite lookup_setitem_other by congruence); trivial.
Qed.

Lemma python_path_step_skipped env name (d : dict) :
  truthy (get_default env "use_virtualenv" (VBool true)) = false ->
  python_path_step env name d = Ok d.
Proof. unfold python_path_step. now intros ->. Qed.

Lemma python_path_step_no_root env name (d : dict) :
  truthy (get_default env "use_virtualenv" (VBool true)) = true ->
  lookup env "virtualenv_root" = None ->
  python_path_step env name d = Raise KeyError.
Proof.
  unfold python_path_step, getitem. now intros -> ->.
Qed.

Lemma lookup_virtualenv_step_other (env d : dict) (k : key) :
  key_in k VIRTUALENV_OPTIONS = false ->
  lookup (virtualenv_step env d) k = lookup d k.
Proof.
  intro H. split_key_in H. unfold virtualenv_step. simpl.
  repeat match goal with
  | |- context [match ?x with _ => _ end] => destruct x
  end;
  repeat (rewrite lookup_setitem_other by congruence); trivial.
Qed.

(** What a successful environment tier went through. *)
Lemma environment_tier_inv {Py : StrMethods} env name opts e :
  options_of env = Some opts ->
  environment_tier env name = Ok e ->
  exists d l,
    python_path_step env name (update [] opts) = Ok d /\
    get_default env "log" (VDict []) = VDict l /\
    e = setitem (virtualenv_step env (logging_options l env d))
          "sudo_user" (get_default env "user" VNone).
Proof.
  unfold options_of, environment_tier. intros Ho H.
  destruct (get_default env "options" (VDict [])) eqn:E; try discriminate.
  injection Ho as ->. simpl in H.
  bind_inv H. bind_inv H. injection H as <-.
  apply logging_step_ok in E1 as (l & Hl & ->).
  now exists x, l.
Qed.

Lemma merged_tiers_inv {Py : StrMethods} cli env tc name c t m :
  py_or cli (VDict []) = VDict c ->
  config tc = VDict t ->
  merged_tiers cli env tc name = Ok m ->
  exists e, environment_tier env name = Ok e /\ m = update (update e t) c.
Proof.
  unfold merged_tiers. intros Hc Ht H.
  bind_inv H. rewrite Ht, Hc in H. simpl in H. injection H as <-.
  now exists x.
Qed.

(** ** After the merge *)

Section AfterMerge.

Context {Py : StrMethods}.

Variable get_storm_workers : dict -> result value.

Lemma lookup_after_debug cli env tc name local r m (k : key) :
  resolve_options get_storm_workers cli env tc name local = Ok r ->
  merged_tiers cli env tc name = Ok m ->
  k <> KStr "storm.workers.list" ->
  k <> KStr "topology.acker.executors" ->
  k <> KStr "topology.workers" ->
  k <> KStr "sudo_user" ->
  lookup r k = lookup (debug_step m) k.
Proof.
  intros H Hm K2 K3 K4 K5.
  apply resolve_options_inv in H as (m' & d & n & Hm' & Hw & ->).
  rewrite Hm in Hm'. injection Hm' as <-.
  rewrite lookup_setdefault_other by assumption.
  rewrite !lookup_default_count_other by assumption.
  apply (lookup_workers_list_step_other _ _ _ _ _ _ _ Hw K2).
Qed.

(** C4: in every dictionary [resolve_options] returns, a truthy
    "topology.debug" comes with "pystorm.log.level" equal to "debug",
    whatever level the CLI options, the topology config or the
    environment config supplied. *)
Theorem debug_forces_log_level cli env tc name local r v :
  resolve_options get_storm_workers cli env tc name local = Ok r ->
  lookup r "topology.debug" = Some v ->
  truthy v = true ->
  lookup r "pystorm.log.level" = Some (VStr "debug").
Proof.
  intros H Hv Ht.
  destruct (resolve_options_inv _ _ _ _ _ _ _ H) as (m & _ & _ & Hm & _).
  rewrite (lookup_after_debug _ _ _ _ _ _ _ _ H Hm) in Hv by key_neq.
  rewrite (lookup_after_debug _ _ _ _ _ _ _ _ H Hm) by key_neq.
  rewrite lookup_debug_step_other in Hv by key_neq.
  rewrite lookup_debug_step_level.
  unfold get_default. now rewrite Hv, Ht.
Qed.

End AfterMerge.

Lemma debug_forces_log_level_witness :
  exists r,
    resolve_options three_workers
      (VDict [(KStr "pystorm.log.level", VStr "info");
              (KStr "topology.debug", VBool true)])
      plain_env no_config "wordcount" true = Ok r /\
    lookup r "pystorm.log.level" = Some (VStr "debug").
Proof.
  eexists. split.
  - vm_compute. reflexivity.
  - apply (debug_forces_log_level three_workers
             (VDict [(KStr "pystorm.log.level", VStr "info");
                     (KStr "topology.debug", VBool true)])
             plain_env no_config "wordcount" true _ (VBool true));
      reflexivity.
Defined.

(** ** The sudo user *)

Lemma lookup_update_some (o d : dict) (k : key) (v : value) :
  lookup d k = Some v -> exists w, lookup (update d o) k = Some w.
Proof.
  unfold update. revert d v.
  induction o as [|[k0 v0] r IH]; intros d v H; simpl.
  - eauto.
  - destruct (key_eqb k0 k) eqn:E.
    + apply key_eqb_eq in E. subst k0.
      apply (IH _ v0). apply lookup_setitem_same.
    + apply (IH _ v). rewrite lookup_setitem_other; trivial.
      intros ->. now rewrite key_eqb_refl in E.
Qed.

(** The environment tier always holds a "sudo_user" entry: the SSH user,
    or [None] when the environment names no user. *)
Lemma environment_tier_sudo_user {Py : StrMethods} env name e :
  environment_tier env name = Ok e ->
  lookup e "sudo_user" = Some (get_default env "user" VNone).
Proof.
  unfold environment_tier. intro H.
  bind_inv H. bind_inv H. bind_inv H. injection H as <-.
  apply lookup_setitem_same.
Qed.

(** The sudo user the code resolves when neither the CLI options nor the
    topology config name one: the environment's "user", and [None], not
    "root", when there is no such entry. *)
Lemma sudo_user_from_environment {Py : StrMethods} gsw cli env tc name local c t r :
  py_or cli (VDict []) = VDict c ->
  config tc = VDict t ->
  lookup c "sudo_user" = None ->
  lookup t "sudo_user" = None ->
  resolve_options gsw cli env tc name local = Ok r ->
  lookup r "sudo_user" = Some (get_default env "user" VNone).
Proof.
  intros Hc Ht Lc Lt H.
  destruct (resolve_options_inv _ _ _ _ _ _ _ H) as (m & d & n & Hm & Hw & _).
  destruct (merged_tiers_inv _ _ _ _ _ _ _ Hc Ht Hm) as (e & He & Em).
  apply (lookup_after_merge _ _ _ _ _ _ _ _ _ H Hm); try key_neq.
  rewrite Em, !lookup_update_absent by assumption.
  now apply environment_tier_sudo_user with (name := name).
Qed.

(** C2, at an environment without a "user" entry: the resolved
    "sudo_user" is [None], where line 350 announces "root". *)
Theorem sudo_user_without_user :
  exists r,
    resolve_options three_workers VNone plain_env no_config "wordcount" true
      = Ok r /\
    lookup plain_env "user" = None /\
    lookup r "sudo_user" = Some VNone.
Proof. eexists. repeat split; vm_compute; reflexivity. Qed.

(** ** One lookup of the workers *)

(** C6: two runs of [resolve_options] on equal arguments end alike, with
    equal dictionaries or the same exception, as soon as the lookup of
    the storm workers answers alike for the environment config. *)
Theorem resolve_options_deterministic {Py : StrMethods}
    (lookup1 lookup2 : dict -> result value) cli env tc name local :
  lookup1 env = lookup2 env ->
  resolve_options lookup1 cli env tc name local =
  resolve_options lookup2 cli env tc name local.
Proof.
  intro H. unfold resolve_options.
  destruct (merged_tiers cli env tc name) as [m|e]; simpl; trivial.
  unfold workers_list_step. now rewrite H.
Qed.

Lemma resolve_options_deterministic_witness :
  resolve_options three_workers VNone plain_env no_config "wordcount" false =
  resolve_options
    (fun env => if mem "use_virtualenv" env then three_workers env
                else no_nimbus env)
    VNone plain_env no_config "wordcount" false.
Proof.
  apply (resolve_options_deterministic three_workers
           (fun env => if mem "use_virtualenv" env then three_workers env
                       else no_nimbus env)
           VNone plain_env no_config "wordcount" false).
  reflexivity.
Defined.

(** The lookup is not consulted at all when [local_only] is set. *)
Lemma resolve_options_local_only {Py : StrMethods}
    (lookup1 lookup2 : dict -> result value) cli env tc name :
  resolve_options lookup1 cli env tc name true =
  resolve_options lookup2 cli env tc name true.
Proof. reflexivity. Qed.

(** ** The virtualenv branch *)

Lemma truthy_use_virtualenv (env : dict) :
  lookup env "use_virtualenv" = None \/
  (exists v, lookup env "use_virtualenv" = Some v /\ truthy v = true) ->
  truthy (get_default env "use_virtualenv" (VBool true)) = true.
Proof.
  unfold get_default. intros [-> | (v & -> & H)]; trivial.
Qed.

(** C9: with "use_virtualenv" truthy or absent and no "virtualenv_root",
    [resolve_options] raises [KeyError] (the options of the environment
    being a dict, so that line 289 passes); with "use_virtualenv" present
    and falsy the branch is skipped, the step leaves the options as they
    are, and the resolved "topology.python.path" is what the three tiers
    supplied, absent when none did. *)
Theorem virtualenv_root_required {Py : StrMethods} gsw cli env tc name local opts :
  options_of env = Some opts ->
  (lookup env "use_virtualenv" = None \/
   (exists v, lookup env "use_virtualenv" = Some v /\ truthy v = true) ->
   lookup env "virtualenv_root" = None ->
   resolve_options gsw cli env tc name local = Raise KeyError) /\
  (forall v, lookup env "use_virtualenv" = Some v -> truthy v = false ->
   (forall d, python_path_step env name d = Ok d) /\
   (forall c t r,
      py_or cli (VDict []) = VDict c -> config tc = VDict t ->
      resolve_options gsw cli env tc name local = Ok r ->
      lookup c "topology.python.path" = None ->
      lookup t "topology.python.path" = None ->
      lookup opts "topology.python.path" = None ->
      lookup r "topology.python.path" = None)).
Proof.
  intro Ho. split.
  - intros Hu Hr.
    unfold resolve_options, merged_tiers, environment_tier.
    unfold options_of in Ho.
    destruct (get_default env "options" (VDict [])); try discriminate.
    simpl.
    rewrite python_path_step_no_root; trivial.
    now apply truthy_use_virtualenv.
  - intros v Hv Hf.
    assert (Hskip : truthy (get_default env "use_virtualenv" (VBool true)) = false).
    { unfold get_default. now rewrite Hv. }
    split.
    + intro d. now apply python_path_step_skipped.
    + intros c t r Hc Ht H Lc Lt Lo.
      destruct (resolve_options_inv _ _ _ _ _ _ _ H) as (m & _ & _ & Hm & _).
      rewrite (lookup_after_debug _ _ _ _ _ _ _ _ _ H Hm) by key_neq.
      rewrite lookup_debug_step_other by key_neq.
      destruct (merged_tiers_inv _ _ _ _ _ _ _ Hc Ht Hm) as (e & He & ->).
      rewrite !lookup_update_absent by assumption.
      destruct (environment_tier_inv _ _ _ _ Ho He) as (d & l & Hd & Hl & ->).
      rewrite lookup_setitem_other by key_neq.
      rewrite lookup_virtualenv_step_other by reflexivity.
      rewrite lookup_logging_options_other by reflexivity.
      rewrite python_path_step_skipped in Hd by assumption.
      injection Hd as <-.
      now rewrite lookup_update_absent.
Qed.

Lemma virtualenv_root_required_witness :
  resolve_options three_workers VNone
    [(KStr "user", VStr "storm")] no_config "wordcount" true
  = Raise KeyError /\
  exists r,
    resolve_options three_workers VNone plain_env no_config "wordcount" true
    = Ok r /\
    lookup r "topology.python.path" = None.
Proof.
  split.
  - destruct (virtualenv_root_required three_workers VNone
                [(KStr "user", VStr "storm")] no_config "wordcount" true []
                eq_refl) as (Hraise & _).
    apply Hraise.
    + left. reflexivity.
    + reflexivity.
  - eexists. split; [vm_compute; reflexivity|].
    destruct (virtualenv_root_required three_workers VNone
                plain_env no_config "wordcount" true [] eq_refl)
      as (_ & Hskip).
    destruct (Hskip (VBool false) eq_refl eq_refl) as (_ & Habsent).
    apply (Habsent [] []); reflexivity.
Defined.

(** ** Constructing a [_StoreDictAction] *)

(** C10: the constructor raises [ValueError] exactly when [nargs == 0],
    or [const] is not [None] while [nargs] is not "?"; with any other
    arguments it returns the action. *)
Theorem init_raises_iff option_strings dest nargs const default type
    choices required help metavar :
  (init option_strings dest nargs const default type
        choices required help metavar = Raise ValueError
   <-> (eq_int nargs 0 = true \/
        (const <> VNone /\ eq_str nargs "?" = false))) /\
  (~ (eq_int nargs 0 = true \/
      (const <> VNone /\ eq_str nargs "?" = false)) ->
   init option_strings dest nargs const default type
        choices required help metavar
   = Ok (mkAction option_strings dest nargs const default type
                  choices required help metavar)).
Proof.
  unfold init.
  destruct (eq_int nargs 0) eqn:E0; simpl.
  - split; [split; auto | intro H; exfalso; auto].
  - destruct const; simpl;
      try (destruct (eq_str nargs "?") eqn:E1; simpl;
           [ split;
             [ split; [discriminate | intros [H | [_ H]]; discriminate]
             | reflexivity ]
           | split;
             [ split; [intros _; right; split; [discriminate | reflexivity]
                      | reflexivity]
             | intro H; exfalso; apply H; right; split;
               [discriminate | reflexivity] ] ]).
    split; [split | reflexivity].
    + discriminate.
    + intros [H | [H _]]; [discriminate | now contradiction H].
Qed.

(** ** Storing key=val strings *)

Lemma getattr_setattr_same (ns : namespace) (name : string) (v d : value) :
  getattr (setattr ns name v) name d = v.
Proof.
  induction ns as [|[n w] r IH]; simpl.
  - now rewrite String.eqb_refl.
  - destruct (String.eqb n name) eqn:E; simpl; rewrite E; trivial.
Qed.

Lemma setattr_setattr (ns : namespace) (name : string) (v w : value) :
  setattr (setattr ns name v) name w = setattr ns name w.
Proof.
  induction ns as [|[n u] r IH]; simpl.
  - now rewrite String.eqb_refl.
  - destruct (String.eqb n name) eqn:E; simpl; rewrite E; trivial.
    now rewrite IH.
Qed.

Lemma split_key_val_append (k v : string) :
  contains "="%char k = false ->
  split_key_val (VStr (k ++ "=" ++ v)) = Ok (k, v).
Proof.
  intro H. unfold split_key_val.
  change (k ++ "=" ++ v) with (k ++ String "="%char v).
  now rewrite split1_append.
Qed.

Lemma split_key_val_no_equals (s : string) :
  contains "="%char s = false -> split_key_val (VStr s) = Raise ValueError.
Proof.
  intro H. unfold split_key_val. now rewrite split1_no_sep.
Qed.

Section StoreDictFacts.

Variable yaml_before_0_15 : bool.
Variable safe_load : string -> result value.
Variable yml_load : string -> result value.

Let load := yaml_load yaml_before_0_15 safe_load yml_load.
Let run := call yaml_before_0_15 safe_load yml_load.

Lemma call_stores self ns k v y d :
  options_dict ns (dest self) = Some d ->
  contains "="%char k = false ->
  load v = Ok y ->
  run self ns (VStr (k ++ "=" ++ v))
  = (setattr ns (dest self) (VDict (setitem d k y)), Ok tt).
Proof.
  intros Hd Hk Hy. unfold run, call, options_dict in *.
  rewrite (split_key_val_append k v Hk).
  cbn [bind fst snd]. fold load. rewrite Hy. cbn [bind].
  destruct (getattr ns (dest self) VNone) eqn:G; try discriminate;
    injection Hd as <-; cbn [is_none].
  - rewrite getattr_setattr_same. cbn [store_item].
    now rewrite setattr_setattr.
  - rewrite G. reflexivity.
Qed.

Lemma options_dict_setattr ns name d :
  options_dict (setattr ns name (VDict d)) name = Some d.
Proof. unfold options_dict. now rewrite getattr_setattr_same. Qed.


End StoreDictFacts.




(** The --debug flag as [add_debug] registers it: the constructor accepts
    it, and a bare --debug, for which argparse passes [const] through
    [type], stores [True] under "topology.debug". *)
Example debug_flag :
  exists self,
    init (VList [VStr "-d"; VStr "--debug"]) "options" (VStr "?")
         (VStr "true") VNone (Some (option_alias "topology.debug")) VNone
         (VBool false) VNone VNone = Ok self /\
    exists ns,
      call false scalar_load scalar_load self [] (get_values self [])
      = (ns, Ok tt) /\
      options_dict ns "options" = Some [(KStr "topology.debug", VBool true)].
Proof.
  eexists. split; [reflexivity|].
  eexists. split; reflexivity.
Qed.

Lemma init_raises_iff_witness :
  init (VList [VStr "-d"; VStr "--debug"]) "options" (VInt 2) (VStr "true")
       VNone (Some (option_alias "topology.debug")) VNone (VBool false)
       VNone VNone
  = Raise ValueError.
Proof.
  apply (init_raises_iff (VList [VStr "-d"; VStr "--debug"]) "options"
           (VInt 2) (VStr "true") VNone
           (Some (option_alias "topology.debug")) VNone (VBool false)
           VNone VNone).
  right. split; [discriminate | reflexivity].
Defined.

(** ** What each step writes *)

Lemma lookup_setitem (d : dict) (k k' : key) (v : value) :
  lookup (setitem d k v) k' = if key_eqb k' k then Some v else lookup d k'.
Proof.
  destruct (key_eqb k' k) eqn:E.
  - apply key_eqb_eq in E. subst. apply lookup_setitem_same.
  - apply lookup_setitem_other. intros ->. now rewrite key_eqb_refl in E.
Qed.

(** Decide the comparisons of a key with string literals. *)
Ltac key_cases :=
  repeat match goal with
  | H : key_eqb ?k (KStr _) = true |- _ =>
      apply key_eqb_eq in H; subst k; simpl in *
  | |- context [key_eqb ?k (KStr ?s)] =>
      let E := fresh "E" in destruct (key_eqb k (KStr s)) eqn:E
  end.

Lemma lookup_logging_options {Py : StrMethods} (l env d : dict) (k : key) :
  lookup (logging_options l env d) k =
  or_else (logging_default l env k) (lookup d k).
Proof.
  unfold logging_options, logging_default, or_else.
  destruct (truthy (py_or (get l "path") (get env "log_path"))),
           (truthy (py_or (get l "file") (get env "log_file"))),
           (isinstance_int (get l "max_bytes")),
           (isinstance_int (get l "backup_count")),
           (get l "level");
    rewrite ?lookup_setitem; key_cases; trivial.
Qed.

Lemma lookup_copy_present (env : dict) (names : list string) (k : key) :
  forall d,
  lookup
    (fold_left
       (fun storm_options venv_option =>
          match lookup env (KStr venv_option) with
          | Some v => setitem storm_options venv_option v
          | None => storm_options
          end) names d) k
  = or_else (if key_in k names then lookup env k else None) (lookup d k).
Proof.
  induction names as [|n names IH]; intro d; simpl; trivial.
  rewrite IH. unfold key_in in *. simpl.
  destruct (key_eqb k n) eqn:E; simpl.
  - apply key_eqb_eq in E. subst k.
    destruct (lookup env n) eqn:L.
    + rewrite lookup_setitem_same.
      destruct (existsb _ names); simpl; now rewrite ?L.
    + destruct (existsb _ names); simpl; now rewrite ?L.
  - destruct (lookup env n) eqn:L; trivial.
    rewrite lookup_setitem_other; trivial.
    intros <-. now rewrite key_eqb_refl in E.
Qed.

Lemma lookup_virtualenv_step (env d : dict) (k : key) :
  lookup (virtualenv_step env d) k =
  or_else (virtualenv_default env k) (lookup d k).
Proof. apply lookup_copy_present. Qed.

Lemma lookup_python_path_step env name (d d' : dict) (k : key) :
  python_path_step env name d = Ok d' ->
  lookup d' k = or_else (python_path_default env name k) (lookup d k).
Proof.
  unfold python_path_step, python_path_default, getitem. intro H.
  destruct (truthy _).
  - destruct (lookup env "virtualenv_root") as [root|]; try discriminate.
    cbn [bind] in H.
    destruct (join "/" [root; VStr name; VStr "bin"; VStr "python"]);
      try discriminate.
    cbn [bind] in H. injection H as <-. rewrite lookup_setitem.
    now destruct (key_eqb k "topology.python.path").
  - injection H as <-. now rewrite andb_false_r.
Qed.

Lemma lookup_update (o d : dict) (k : key) :
  wf_dict o = true ->
  lookup (update d o) k = or_else (lookup o k) (lookup d k).
Proof.
  intro Hwf. destruct (lookup o k) eqn:L; simpl.
  - now apply lookup_update_present.
  - now apply lookup_update_absent.
Qed.

Lemma lookup_environment_tier {Py : StrMethods} env name opts e (k : key) :
  options_of env = Some opts ->
  environment_tier env name = Ok e ->
  lookup e k =
  or_else (environment_default env name k) (lookup (update [] opts) k).
Proof.
  intros Ho He.
  destruct (environment_tier_inv _ _ _ _ Ho He) as (d & l & Hd & Hl & ->).
  unfold environment_default. rewrite Hl, lookup_setitem.
  destruct (key_eqb k "sudo_user"); trivial.
  rewrite lookup_virtualenv_step, lookup_logging_options.
  rewrite (lookup_python_path_step _ _ _ _ k Hd).
  destruct (virtualenv_default env k), (logging_default l env k); trivial.
Qed.

Lemma get_debug_step_other (d : dict) (k : key) :
  k <> KStr "pystorm.log.level" -> get (debug_step d) k = get d k.
Proof.
  intro H. unfold get, get_default. now rewrite lookup_debug_step_other.
Qed.

Section Workers.

Variable get_storm_workers : dict -> result value.

(** The worker list and the count [workers_list_step] ends with. *)
Lemma workers_list_step_spec env local d d' n :
  workers_list_step get_storm_workers env local d = Ok (d', n) ->
  exists w,
    lookup d' "storm.workers.list" = Some w /\
    (local = true -> w = VList [] /\ n = 1) /\
    (local = false ->
       py_len w = Ok n /\
       (truthy (get d "storm.workers.list") = false ->
          get_storm_workers env = Ok w) /\
       (forall s, get d "storm.workers.list" = VStr s -> s <> "" ->
          w = VList (map VStr (split ","%char s))) /\
       (truthy (get d "storm.workers.list") = true ->
        isinstance_str (get d "storm.workers.list") = false ->
          w = get d "storm.workers.list")).
Proof.
  unfold workers_list_step. intro H. destruct local; simpl in H.
  - injection H as <- <-. exists (VList []).
    rewrite lookup_setitem_same. repeat split; discriminate.
  - bind_inv H. bind_inv H. bind_inv H. injection H as <- <-.
    exists x0. unfold getitem in E0.
    destruct (lookup x "storm.workers.list") as [w|] eqn:L; try discriminate.
    injection E0 as <-. split; trivial. split; [discriminate|]. intros _.
    split; trivial.
    destruct (truthy (get d "storm.workers.list")) eqn:T; simpl in E.
    + unfold getitem in E.
      assert (G : get d "storm.workers.list" =
                  match lookup d "storm.workers.list" with
                  | Some v => v | None => VNone end) by reflexivity.
      destruct (lookup d "storm.workers.list") as [cur|] eqn:Lc;
        [|rewrite G in T; discriminate].
      simpl in E. rewrite G. repeat split; try discriminate.
      * intros s -> Hs. injection E as <-.
        rewrite lookup_setitem_same in L. now injection L.
      * intros _ Hi. destruct cur; try discriminate Hi; injection E as <-;
          congruence.
    + bind_inv E. injection E as <-.
      rewrite lookup_setitem_same in L. injection L as <-.
      repeat split; trivial; try discriminate.
      intros s Hs Hne. rewrite Hs in T. simpl in T.
      destruct s; [now contradiction Hne | discriminate].
Qed.

End Workers.

(** ** The resolved options, key by key *)

Lemma lookup_default_count (k0 : string) (n : Z) (d : dict) (k : key) :
  lookup (default_count k0 n d) k =
  if key_eqb k k0 && is_none (get d k0) then Some (VInt n) else lookup d k.
Proof.
  unfold default_count.
  destruct (is_none (get d k0)); rewrite ?lookup_setitem;
    now destruct (key_eqb k k0).
Qed.

Lemma lookup_debug_step (d : dict) (k : key) :
  lookup (debug_step d) k =
  if key_eqb k "pystorm.log.level"
     && truthy (get_default d "topology.debug" (VBool false))
  then Some (VStr "debug") else lookup d k.
Proof.
  unfold debug_step.
  destruct (truthy _); rewrite ?lookup_setitem;
    now destruct (key_eqb k "pystorm.log.level").
Qed.

Lemma get_eq (d d' : dict) (k : key) :
  lookup d k = lookup d' k -> get d k = get d' k.
Proof. unfold get, get_default. now intros ->. Qed.

Lemma truthy_get_lookup (d : dict) (k : key) :
  truthy (get d k) = true -> lookup d k = Some (get d k).
Proof.
  unfold get, get_default. destruct (lookup d k); trivial. discriminate.
Qed.

Section Resolved.

Context {Py : StrMethods}.

Variable get_storm_workers : dict -> result value.

Lemma merged_sudo_user cli env tc name c t m :
  py_or cli (VDict []) = VDict c ->
  config tc = VDict t ->
  merged_tiers cli env tc name = Ok m ->
  exists v, lookup m "sudo_user" = Some v.
Proof.
  intros Hc Ht Hm.
  destruct (merged_tiers_inv _ _ _ _ _ _ _ Hc Ht Hm) as (e & He & ->).
  apply environment_tier_sudo_user in He.
  destruct (lookup_update_some t e _ _ He) as (w & Hw).
  apply (lookup_update_some c _ _ _ Hw).
Qed.

(** A key that no step after the merge writes resolves to its merged
    value. *)
Lemma lookup_resolved cli env tc name local c t m r (k : key) :
  py_or cli (VDict []) = VDict c ->
  config tc = VDict t ->
  merged_tiers cli env tc name = Ok m ->
  resolve_options get_storm_workers cli env tc name local = Ok r ->
  rewritten_after_merge local m k = false ->
  lookup r k = lookup m k.
Proof.
  intros Hc Ht Hm H Hk.
  destruct (merged_sudo_user _ _ _ _ _ _ _ Hc Ht Hm) as (su & Hsu).
  apply resolve_options_inv in H as (m' & d & n & Hm' & Hw & ->).
  rewrite Hm in Hm'. injection Hm' as <-.
  assert (Hd : forall k', k' <> KStr "storm.workers.list" ->
                          lookup d k' = lookup (debug_step m) k').
  { intros k' K. apply (lookup_workers_list_step_other _ _ _ _ _ _ _ Hw K). }
  assert (Ha : get d "topology.acker.executors"
               = get m "topology.acker.executors").
  { apply get_eq. rewrite Hd by key_neq.
    apply lookup_debug_step_other. key_neq. }
  assert (Hwk : get (default_count "topology.acker.executors" n d)
                  "topology.workers" = get m "topology.workers").
  { apply get_eq. rewrite lookup_default_count_other by key_neq.
    rewrite Hd by key_neq. apply lookup_debug_step_other. key_neq. }
  unfold rewritten_after_merge in Hk.
  apply orb_false_iff in Hk as [Hk K4].
  apply orb_false_iff in Hk as [Hk K3].
  apply orb_false_iff in Hk as [K1 K2].
  destruct (key_eqb k "sudo_user") eqn:Esu.
  { apply key_eqb_eq in Esu. subst k.
    rewrite lookup_setdefault_same.
    rewrite !lookup_default_count_other by key_neq.
    rewrite Hd by key_neq. rewrite lookup_debug_step_other by key_neq.
    now rewrite Hsu. }
  rewrite lookup_setdefault_other
    by (intros ->; now rewrite key_eqb_refl in Esu).
  rewrite !lookup_default_count, Ha, Hwk, K3, K4.
  destruct (key_eqb k "storm.workers.list") eqn:Es.
  - apply key_eqb_eq in Es. subst k. simpl in K2.
    apply orb_false_iff in K2 as [K2 Hstr].
    apply orb_false_iff in K2 as [-> Htr].
    apply negb_false_iff in Htr.
    destruct (workers_list_step_spec _ _ _ _ _ _ Hw) as (w & Lw & _ & Hs).
    destruct (Hs eq_refl) as (_ & _ & _ & Hkeep).
    rewrite get_debug_step_other in Hkeep by key_neq.
    rewrite Lw, (Hkeep Htr Hstr). symmetry. now apply truthy_get_lookup.
  - rewrite Hd by (intros ->; now rewrite key_eqb_refl in Es).
    now rewrite lookup_debug_step, K1.
Qed.

End Resolved.

(** ** Precedence of the three tiers *)

Lemma lookup_update_nil (o : dict) (k : key) :
  wf_dict o = true -> lookup (update [] o) k = lookup o k.
Proof.
  intro H. rewrite lookup_update by assumption. simpl.
  now destruct (lookup o k).
Qed.

(** The merged value of a key: CLI, else topology, else what the
    environment tier derived, else the environment's options. *)
Lemma lookup_merged {Py : StrMethods} cli env tc name c t opts m (k : key) :
  py_or cli (VDict []) = VDict c ->
  config tc = VDict t ->
  options_of env = Some opts ->
  wf_dict c = true -> wf_dict t = true -> wf_dict opts = true ->
  merged_tiers cli env tc name = Ok m ->
  lookup m k =
  or_else (lookup c k)
    (or_else (lookup t k)
       (or_else (environment_default env name k) (lookup opts k))).
Proof.
  intros Hc Ht Ho Wc Wt Wo Hm.
  destruct (merged_tiers_inv _ _ _ _ _ _ _ Hc Ht Hm) as (e & He & ->).
  rewrite !lookup_update by assumption.
  rewrite (lookup_environment_tier _ _ _ _ k Ho He).
  now rewrite lookup_update_nil.
Qed.

(** C1, as the code has it: a key that no later step writes resolves to
    [cli_options[k]] when the CLI options hold it, otherwise to the
    topology's [config[k]] when that holds it, otherwise to
    [env_config["options"][k]] when that holds it and the environment
    tier derives no entry of its own for [k].  The steps after the merge
    write "pystorm.log.level" when "topology.debug" is truthy,
    "storm.workers.list" when [local_only] is set or the merged value is
    falsy or a string, and the two counts when their merged value is
    [None]. *)
Theorem resolve_options_precedence {Py : StrMethods} gsw cli env tc name local c t opts m r :
  py_or cli (VDict []) = VDict c ->
  config tc = VDict t ->
  options_of env = Some opts ->
  wf_dict c = true -> wf_dict t = true -> wf_dict opts = true ->
  merged_tiers cli env tc name = Ok m ->
  resolve_options gsw cli env tc name local = Ok r ->
  forall k, rewritten_after_merge local m k = false ->
    (forall v, lookup c k = Some v -> lookup r k = Some v) /\
    (lookup c k = None ->
     forall v, lookup t k = Some v -> lookup r k = Some v) /\
    (lookup c k = None -> lookup t k = None ->
     environment_default env name k = None ->
     forall v, lookup opts k = Some v -> lookup r k = Some v).
Proof.
  intros Hc Ht Ho Wc Wt Wo Hm H k Hk.
  rewrite (lookup_resolved gsw _ _ _ _ _ _ _ _ _ k Hc Ht Hm H Hk).
  rewrite (lookup_merged _ _ _ _ _ _ _ _ k Hc Ht Ho Wc Wt Wo Hm).
  repeat split.
  - now intros v ->.
  - now intros -> v ->.
  - now intros -> -> -> v ->.
Qed.

Lemma resolve_options_precedence_witness :
  exists r,
    resolve_options three_workers (VDict timeout_cli) sample_env
      {| config := VDict pending_config |} "wordcount" false = Ok r /\
    lookup r "topology.message.timeout.secs" = Some (VInt 60) /\
    lookup r "topology.max.spout.pending" = Some (VInt 100) /\
    lookup r "topology.tick.tuple.freq.secs" = Some (VInt 5).
Proof.
  eexists. split; [vm_compute; reflexivity|].
  pose proof
    (fun m Hm r H =>
       resolve_options_precedence three_workers (VDict timeout_cli)
         sample_env {| config := VDict pending_config |} "wordcount" false
         timeout_cli pending_config sample_options m r
         eq_refl eq_refl eq_refl eq_refl eq_refl eq_refl Hm H) as P.
  specialize (P _ eq_refl _ eq_refl).
  split; [|split].
  - destruct (P "topology.message.timeout.secs" eq_refl) as (P1 & _).
    apply P1. reflexivity.
  - destruct (P "topology.max.spout.pending" eq_refl) as (_ & P2 & _).
    apply P2; reflexivity.
  - destruct (P "topology.tick.tuple.freq.secs" eq_refl) as (_ & _ & P3).
    apply P3; reflexivity.
Defined.

(** C1 fails as it is written: with "topology.debug" set, a log level
    given on the command line does not reach the resolved options. *)
Lemma precedence_fails_for_log_level :
  exists r,
    resolve_options three_workers
      (VDict [(KStr "pystorm.log.level", VStr "info");
              (KStr "topology.debug", VBool true)])
      plain_env no_config "wordcount" true = Ok r /\
    lookup [(KStr "pystorm.log.level", VStr "info");
            (KStr "topology.debug", VBool true)] "pystorm.log.level"
    = Some (VStr "info") /\
    lookup r "pystorm.log.level" = Some (VStr "debug") /\
    lookup r "pystorm.log.level" <> Some (VStr "info").
Proof.
  eexists. split; [vm_compute; reflexivity|].
  repeat split; discriminate.
Qed.

(** ** Worker counts *)

Lemma is_none_get (d : dict) (k : key) :
  lookup d k = None \/ lookup d k = Some VNone -> is_none (get d k) = true.
Proof. unfold get, get_default. now intros [-> | ->]. Qed.

(** C3, as the code has it.  The resolved "storm.workers.list" is [[]]
    under [local_only]; otherwise a merged value that is falsy or absent
    (the empty string included) is replaced by the answer of the workers
    lookup, and a non-empty string is split at its commas.  The number of
    workers is 1 under [local_only] and the length of the resolved list
    otherwise, and each of "topology.acker.executors" and
    "topology.workers" that is absent or [None] after the merge is set to
    that number, one independently of the other. *)
Theorem worker_count_defaults {Py : StrMethods} gsw cli env tc name local m r :
  merged_tiers cli env tc name = Ok m ->
  resolve_options gsw cli env tc name local = Ok r ->
  exists w n,
    lookup r "storm.workers.list" = Some w /\
    (local = true -> w = VList [] /\ n = 1) /\
    (local = false ->
       py_len w = Ok n /\
       (forall s, get m "storm.workers.list" = VStr s -> s <> "" ->
          w = VList (map VStr (split ","%char s))) /\
       (truthy (get m "storm.workers.list") = false -> gsw env = Ok w)) /\
    (lookup m "topology.acker.executors" = None \/
     lookup m "topology.acker.executors" = Some VNone ->
     lookup r "topology.acker.executors" = Some (VInt n)) /\
    (lookup m "topology.workers" = None \/
     lookup m "topology.workers" = Some VNone ->
     lookup r "topology.workers" = Some (VInt n)).
Proof.
  intros Hm H.
  apply resolve_options_inv in H as (m' & d & n & Hm' & Hw & ->).
  rewrite Hm in Hm'. injection Hm' as <-.
  destruct (workers_list_step_spec _ _ _ _ _ _ Hw)
    as (w & Lw & Hlocal & Hremote).
  rewrite get_debug_step_other in Hremote by key_neq.
  assert (Hd : forall k', k' <> KStr "storm.workers.list" ->
                          lookup d k' = lookup (debug_step m) k').
  { intros k' K. apply (lookup_workers_list_step_other _ _ _ _ _ _ _ Hw K). }
  exists w, n. split; [|split; [|split; [|split]]].
  - rewrite lookup_setdefault_other by key_neq.
    now rewrite !lookup_default_count_other by key_neq.
  - exact Hlocal.
  - intro Hl. destruct (Hremote Hl) as (Hlen & Hget & Hsplit & _).
    auto.
  - intro Habsent.
    rewrite lookup_setdefault_other by key_neq.
    rewrite lookup_default_count_other by key_neq.
    rewrite lookup_default_count_same.
    assert (G : get d "topology.acker.executors"
                = get m "topology.acker.executors").
    { apply get_eq. rewrite Hd by key_neq.
      apply lookup_debug_step_other. key_neq. }
    now rewrite G, is_none_get.
  - intro Habsent.
    rewrite lookup_setdefault_other by key_neq.
    rewrite lookup_default_count_same.
    assert (G : get (default_count "topology.acker.executors" n d)
                  "topology.workers" = get m "topology.workers").
    { apply get_eq. rewrite lookup_default_count_other by key_neq.
      rewrite Hd by key_neq. apply lookup_debug_step_other. key_neq. }
    now rewrite G, is_none_get.
Qed.

Lemma worker_count_defaults_witness :
  exists r,
    resolve_options no_nimbus VNone (listed_env "10.0.0.1,10.0.0.2")
      no_config "wordcount" false = Ok r /\
    lookup r "storm.workers.list"
    = Some (VList [VStr "10.0.0.1"; VStr "10.0.0.2"]) /\
    lookup r "topology.acker.executors" = Some (VInt 2) /\
    lookup r "topology.workers" = Some (VInt 2).
Proof.
  eexists. split; [vm_compute; reflexivity|].
  pose proof
    (fun m Hm r H =>
       worker_count_defaults no_nimbus VNone
         (listed_env "10.0.0.1,10.0.0.2") no_config "wordcount" false
         m r Hm H) as P.
  destruct (P _ eq_refl _ eq_refl) as (w & n & Lw & _ & Hremote & Ha & Hk).
  destruct (Hremote eq_refl) as (Hlen & Hsplit & _).
  assert (Hw : w = VList [VStr "10.0.0.1"; VStr "10.0.0.2"]).
  { apply (Hsplit "10.0.0.1,10.0.0.2"); [reflexivity | discriminate]. }
  subst w. injection Hlen as <-.
  split; [exact Lw|].
  split; [apply Ha | apply Hk]; left; reflexivity.
Defined.

(** C3 fails as it is written at the empty string, which is a string
    and is not split: the workers lookup answers in its place. *)
Lemma empty_workers_string_is_not_split :
  exists r,
    resolve_options three_workers VNone (listed_env "")
      no_config "wordcount" false = Ok r /\
    VList (map VStr (split ","%char "")) = VList [VStr ""] /\
    lookup r "storm.workers.list"
    = Some (VList [VStr "10.0.0.1"; VStr "10.0.0.2"; VStr "10.0.0.3"]) /\
    lookup r "storm.workers.list"
    <> Some (VList (map VStr (split ","%char ""))) /\
    lookup r "topology.acker.executors" = Some (VInt 3).
Proof.
  eexists. split; [vm_compute; reflexivity|].
  split; [reflexivity|]. split; [reflexivity|]. split; [discriminate|].
  reflexivity.
Qed.

(** ** Logging defaults *)

Section Logging.

Context {Py : StrMethods}.

Variable get_storm_workers : dict -> result value.

(** A log key that neither the topology nor the CLI sets, and that no
    later step writes, resolves to the entry [logging_step] derived, or
    else to the environment's option. *)
Lemma lookup_log_key cli env tc name local c t opts l m r (k : key) :
  py_or cli (VDict []) = VDict c ->
  config tc = VDict t ->
  options_of env = Some opts ->
  wf_dict opts = true ->
  get_default env "log" (VDict []) = VDict l ->
  merged_tiers cli env tc name = Ok m ->
  resolve_options get_storm_workers cli env tc name local = Ok r ->
  key_in k log_keys = true ->
  rewritten_after_merge local m k = false ->
  lookup t k = None -> lookup c k = None ->
  lookup r k = or_else (logging_default l env k) (lookup opts k).
Proof.
  intros Hc Ht Ho Wo Hl Hm H Hk Hrw Lt Lc.
  rewrite (lookup_resolved _ _ _ _ _ _ _ _ _ _ k Hc Ht Hm H Hrw).
  destruct (merged_tiers_inv _ _ _ _ _ _ _ Hc Ht Hm) as (e & He & ->).
  rewrite !lookup_update_absent by assumption.
  rewrite (lookup_environment_tier _ _ _ _ k Ho He).
  rewrite lookup_update_nil by assumption.
  unfold environment_default. rewrite Hl.
  generalize (logging_default l env k). intro x.
  generalize (lookup opts k). intro y.
  unfold virtualenv_default, python_path_default.
  unfold key_in, log_keys in Hk. simpl in Hk.
  repeat (apply orb_true_iff in Hk as [Hk | Hk];
          [apply key_eqb_eq in Hk; subst k; now destruct x|]).
  discriminate.
Qed.

Lemma resolved_debug cli env tc name local c t m r :
  py_or cli (VDict []) = VDict c ->
  config tc = VDict t ->
  merged_tiers cli env tc name = Ok m ->
  resolve_options get_storm_workers cli env tc name local = Ok r ->
  get_default r "topology.debug" (VBool false)
  = get_default m "topology.debug" (VBool false).
Proof.
  intros Hc Ht Hm H. unfold get_default.
  now rewrite (lookup_resolved _ _ _ _ _ _ _ _ _ _ "topology.debug"
                 Hc Ht Hm H eq_refl).
Qed.

End Logging.

Ltac rewrite_truthy :=
  match goal with
  | H : truthy _ = _ |- _ => rewrite H
  end.

(** C5, as the code has it.  As long as neither the topology nor the CLI
    sets the key: "pystorm.log.path" is [env_config["log"]["path"]] when
    that is truthy, otherwise [env_config["log_path"]] when that is
    truthy, and otherwise what [env_config["options"]] holds for the key,
    absent when that holds none; "pystorm.log.file" likewise from
    log.file and log_file; "pystorm.log.max_bytes" and
    "pystorm.log.backup_count" are the log-config values when these are
    ints and the environment's options otherwise; "pystorm.log.level",
    when the resolved "topology.debug" is not truthy, is the lowercased
    log-config value when that is a str and the environment's option
    otherwise. *)
Theorem logging_defaults {Py : StrMethods} gsw cli env tc name local c t opts r :
  py_or cli (VDict []) = VDict c ->
  config tc = VDict t ->
  options_of env = Some opts ->
  wf_dict opts = true ->
  resolve_options gsw cli env tc name local = Ok r ->
  exists l,
    get_default env "log" (VDict []) = VDict l /\
    (lookup t "pystorm.log.path" = None ->
     lookup c "pystorm.log.path" = None ->
     (truthy (get l "path") = true ->
      lookup r "pystorm.log.path" = Some (get l "path")) /\
     (truthy (get l "path") = false ->
      truthy (get env "log_path") = true ->
      lookup r "pystorm.log.path" = Some (get env "log_path")) /\
     (truthy (get l "path") = false ->
      truthy (get env "log_path") = false ->
      lookup r "pystorm.log.path" = lookup opts "pystorm.log.path")) /\
    (lookup t "pystorm.log.file" = None ->
     lookup c "pystorm.log.file" = None ->
     (truthy (get l "file") = true ->
      lookup r "pystorm.log.file" = Some (get l "file")) /\
     (truthy (get l "file") = false ->
      truthy (get env "log_file") = true ->
      lookup r "pystorm.log.file" = Some (get env "log_file")) /\
     (truthy (get l "file") = false ->
      truthy (get env "log_file") = false ->
      lookup r "pystorm.log.file" = lookup opts "pystorm.log.file")) /\
    (lookup t "pystorm.log.max_bytes" = None ->
     lookup c "pystorm.log.max_bytes" = None ->
     (isinstance_int (get l "max_bytes") = true ->
      lookup r "pystorm.log.max_bytes" = Some (get l "max_bytes")) /\
     (isinstance_int (get l "max_bytes") = false ->
      lookup r "pystorm.log.max_bytes"
      = lookup opts "pystorm.log.max_bytes")) /\
    (lookup t "pystorm.log.backup_count" = None ->
     lookup c "pystorm.log.backup_count" = None ->
     (isinstance_int (get l "backup_count") = true ->
      lookup r "pystorm.log.backup_count" = Some (get l "backup_count")) /\
     (isinstance_int (get l "backup_count") = false ->
      lookup r "pystorm.log.backup_count"
      = lookup opts "pystorm.log.backup_count")) /\
    (lookup t "pystorm.log.level" = None ->
     lookup c "pystorm.log.level" = None ->
     truthy (get_default r "topology.debug" (VBool false)) = false ->
     (forall s, get l "level" = VStr s ->
      lookup r "pystorm.log.level" = Some (VStr (str_lower s))) /\
     (isinstance_str (get l "level") = false ->
      lookup r "pystorm.log.level" = lookup opts "pystorm.log.level")).
Proof.
  intros Hc Ht Ho Wo H.
  destruct (resolve_options_inv _ _ _ _ _ _ _ H) as (m & _ & _ & Hm & _).
  destruct (merged_tiers_inv _ _ _ _ _ _ _ Hc Ht Hm) as (e & He & _).
  destruct (environment_tier_inv _ _ _ _ Ho He) as (_ & l & _ & Hl & _).
  exists l. split; trivial.
  pose proof (fun k => lookup_log_key gsw _ _ _ _ _ _ _ _ _ _ _ k
                         Hc Ht Ho Wo Hl Hm H) as P.
  split; [|split; [|split; [|split]]].
  - intros Lt Lc.
    rewrite (P "pystorm.log.path" eq_refl eq_refl Lt Lc).
    unfold logging_default, py_or. simpl.
    repeat split; intros; repeat (rewrite_truthy; simpl); trivial.
  - intros Lt Lc.
    rewrite (P "pystorm.log.file" eq_refl eq_refl Lt Lc).
    unfold logging_default, py_or. simpl.
    repeat split; intros; repeat (rewrite_truthy; simpl); trivial.
  - intros Lt Lc.
    rewrite (P "pystorm.log.max_bytes" eq_refl eq_refl Lt Lc).
    unfold logging_default. simpl.
    split; now intros ->.
  - intros Lt Lc.
    rewrite (P "pystorm.log.backup_count" eq_refl eq_refl Lt Lc).
    unfold logging_default. simpl.
    split; now intros ->.
  - intros Lt Lc Hdebug.
    rewrite (resolved_debug gsw _ _ _ _ _ _ _ _ _ Hc Ht Hm H) in Hdebug.
    assert (Hrw : rewritten_after_merge local m "pystorm.log.level" = false).
    { unfold rewritten_after_merge. simpl. now rewrite Hdebug. }
    rewrite (P "pystorm.log.level" eq_refl Hrw Lt Lc).
    unfold logging_default. simpl.
    split.
    + now intros s ->.
    + destruct (get l "level"); trivial; discriminate.
Qed.

Lemma logging_defaults_witness :
  exists r,
    resolve_options three_workers VNone logging_env no_config "wordcount" true
    = Ok r /\
    lookup r "pystorm.log.path" = Some (VStr "/var/log/storm") /\
    lookup r "pystorm.log.file" = Some (VStr "wordcount.log") /\
    lookup r "pystorm.log.max_bytes" = Some (VInt 1000000) /\
    lookup r "pystorm.log.backup_count" = None /\
    lookup r "pystorm.log.level" = Some (VStr "info").
Proof.
  eexists. split; [vm_compute; reflexivity|].
  pose proof
    (fun r H =>
       logging_defaults three_workers VNone logging_env no_config
         "wordcount" true [] [] [] r eq_refl eq_refl eq_refl eq_refl H) as P.
  destruct (P _ eq_refl) as (l & Hl & Ppath & Pfile & Pmax & Pcount & Plevel).
  injection Hl as <-.
  split; [|split; [|split; [|split]]].
  - apply (Ppath eq_refl eq_refl). reflexivity.
  - destruct (Pfile eq_refl eq_refl) as (_ & Q & _). apply Q; reflexivity.
  - apply (Pmax eq_refl eq_refl). reflexivity.
  - destruct (Pcount eq_refl eq_refl) as (_ & Q). apply Q. reflexivity.
  - destruct (Plevel eq_refl eq_refl eq_refl) as (Q & _).
    apply (Q "INFO"). reflexivity.
Defined.

(** C5 fails as it is written where the environment's options hold the
    key: with no log path in the log section, none under "log_path" and
    none from the topology or the CLI, "pystorm.log.path" is not absent. *)
Lemma log_path_from_environment_options :
  lookup log_option_env "log" = None /\
  lookup log_option_env "log_path" = None /\
  exists r,
    resolve_options three_workers VNone log_option_env no_config
      "wordcount" true = Ok r /\
    lookup r "pystorm.log.path" = Some (VStr "/var/log/storm") /\
    lookup r "pystorm.log.path" <> None.
Proof.
  split; [reflexivity|]. split; [reflexivity|].
  eexists. split; [vm_compute; reflexivity|].
  split; [reflexivity | discriminate].
Qed.

(** ** The keys of the resolved options *)

Lemma str_keys_python_path_step env name (d d' : dict) :
  python_path_step env name d = Ok d' ->
  str_keys d = true -> str_keys d' = true.
Proof.
  unfold python_path_step. intros H Hd.
  destruct (truthy _).
  - bind_inv H. bind_inv H. injection H as <-.
    now apply str_keys_setitem.
  - now injection H as <-.
Qed.

Lemma str_keys_logging_options {Py : StrMethods} (l env d : dict) :
  str_keys d = true -> str_keys (logging_options l env d) = true.
Proof.
  intro Hd. unfold logging_options.
  destruct (truthy (py_or (get l "path") (get env "log_path"))),
           (truthy (py_or (get l "file") (get env "log_file"))),
           (isinstance_int (get l "max_bytes")),
           (isinstance_int (get l "backup_count")),
           (get l "level");
    repeat (apply str_keys_setitem; trivial); assumption.
Qed.

Lemma str_keys_copy_present (env : dict) (names : list string) :
  forall d, str_keys d = true ->
  str_keys
    (fold_left
       (fun storm_options venv_option =>
          match lookup env (KStr venv_option) with
          | Some v => setitem storm_options venv_option v
          | None => storm_options
          end) names d) = true.
Proof.
  induction names as [|n names IH]; intros d Hd; simpl; trivial.
  apply IH. destruct (lookup env n); trivial. now apply str_keys_setitem.
Qed.

Lemma str_keys_debug_step (d : dict) :
  str_keys d = true -> str_keys (debug_step d) = true.
Proof.
  intro Hd. unfold debug_step. destruct (truthy _); trivial.
  now apply str_keys_setitem.
Qed.

Lemma str_keys_default_count (k : string) (n : Z) (d : dict) :
  str_keys d = true -> str_keys (default_count k n d) = true.
Proof.
  intro Hd. unfold default_count. destruct (is_none _); trivial.
  now apply str_keys_setitem.
Qed.

Lemma str_keys_workers_list_step gsw env local d d' n :
  workers_list_step gsw env local d = Ok (d', n) ->
  str_keys d = true -> str_keys d' = true.
Proof.
  unfold workers_list_step. intros H Hd. destruct local; simpl in H.
  - injection H as <- <-. now apply str_keys_setitem.
  - bind_inv H. bind_inv H. bind_inv H. injection H as <- <-.
    destruct (truthy (get d "storm.workers.list")); simpl in E.
    + bind_inv E. destruct x2; injection E as <-; trivial.
      now apply str_keys_setitem.
    + bind_inv E. injection E as <-. now apply str_keys_setitem.
Qed.

(** C8: when the environment's options, the topology's config and the
    CLI options are dicts with string keys only, every key of the dict
    [resolve_options] returns is a string. *)
Theorem resolved_keys_are_strings {Py : StrMethods} gsw cli env tc name local c t opts r :
  py_or cli (VDict []) = VDict c ->
  config tc = VDict t ->
  options_of env = Some opts ->
  str_keys c = true -> str_keys t = true -> str_keys opts = true ->
  resolve_options gsw cli env tc name local = Ok r ->
  str_keys r = true.
Proof.
  intros Hc Ht Ho Sc St So H.
  apply resolve_options_inv in H as (m & d & n & Hm & Hw & ->).
  destruct (merged_tiers_inv _ _ _ _ _ _ _ Hc Ht Hm) as (e & He & ->).
  destruct (environment_tier_inv _ _ _ _ Ho He) as (d0 & l & Hd0 & _ & ->).
  apply str_keys_setdefault; trivial.
  do 2 apply str_keys_default_count.
  apply (str_keys_workers_list_step _ _ _ _ _ _ Hw).
  apply str_keys_debug_step.
  do 2 (apply str_keys_update; trivial).
  apply str_keys_setitem; trivial.
  apply str_keys_copy_present, str_keys_logging_options.
  apply (str_keys_python_path_step _ _ _ _ Hd0).
  now apply str_keys_update.
Qed.

Lemma resolved_keys_are_strings_witness :
  exists r,
    resolve_options three_workers (VDict timeout_cli) sample_env
      {| config := VDict pending_config |} "wordcount" false = Ok r /\
    str_keys r = true.
Proof.
  eexists. split; [vm_compute; reflexivity|].
  apply (resolved_keys_are_strings three_workers (VDict timeout_cli)
           sample_env {| config := VDict pending_config |} "wordcount" false
           timeout_cli pending_config sample_options);
    reflexivity.
Defined.

(** * Further properties *)

(** ** [__call__]: splitting, failures and what is left untouched *)

Lemma split1_pair (sep : ascii) (s : string) : forall k v,
  split1 sep s = [k; v] -> s = k ++ String sep v /\ contains sep k = false.
Proof.
  induction s as [|c r IH]; intros k v H; simpl in H.
  - discriminate.
  - destruct (Ascii.eqb c sep) eqn:E.
    + apply Ascii.eqb_eq in E. subst c. injection H as <- <-. now split.
    + destruct (split1 sep r) as [|h t] eqn:S; try discriminate.
      injection H as <- ->.
      destruct (IH h v eq_refl) as [-> Hc]. simpl. rewrite E. now split.
Qed.

Lemma split_key_val_inv (s k v : string) :
  split_key_val (VStr s) = Ok (k, v) ->
  s = k ++ "=" ++ v /\ contains "="%char k = false.
Proof.
  unfold split_key_val. intro H.
  destruct (split1 "=" s) as [|a [|b [|c l]]] eqn:S; try discriminate.
  injection H as -> ->. now apply split1_pair.
Qed.

(** The unpacking [key, val = values.split("=", 1)] succeeds with [key]
    and [val] exactly when the argument is [key], an "=", and [val], with
    no "=" in [key]. *)
Theorem split_key_val_iff (s k v : string) :
  split_key_val (VStr s) = Ok (k, v) <->
  s = k ++ "=" ++ v /\ contains "="%char k = false.
Proof.
  split.
  - apply split_key_val_inv.
  - intros [-> H]. now apply split_key_val_append.
Qed.

Lemma getattr_setattr_other (ns : namespace) (name other : string)
    (v d : value) :
  other <> name -> getattr (setattr ns name v) other d = getattr ns other d.
Proof.
  intro Hne. induction ns as [|[n w] r IH]; simpl.
  - destruct (String.eqb name other) eqn:E; trivial.
    apply String.eqb_eq in E. congruence.
  - destruct (String.eqb n name) eqn:E; simpl.
    + apply String.eqb_eq in E. subst n.
      destruct (String.eqb name other) eqn:E'; trivial.
      apply String.eqb_eq in E'. congruence.
    + now rewrite IH.
Qed.

Lemma setitem_setitem (d : dict) (k : key) (v w : value) :
  setitem (setitem d k v) k w = setitem d k w.
Proof.
  induction d as [|[k0 v0] r IH]; simpl.
  - now rewrite key_eqb_refl.
  - destruct (key_eqb k0 k) eqn:E; simpl; rewrite E; trivial.
    now rewrite IH.
Qed.

Section CallFacts.

Variable yaml_before_0_15 : bool.
Variable safe_load : string -> result value.
Variable yml_load : string -> result value.

Let load := yaml_load yaml_before_0_15 safe_load yml_load.
Let run := call yaml_before_0_15 safe_load yml_load.

(** The namespace after the first statement of [__call__]. *)
Let prepared (self : Action) (ns : namespace) : namespace :=
  if is_none (getattr ns (dest self) VNone)
  then setattr ns (dest self) (VDict []) else ns.

Lemma call_raise_namespace self ns values e :
  snd (run self ns values) = Raise e ->
  fst (run self ns values) = prepared self ns.
Proof.
  unfold run, call, prepared.
  destruct (kv <- split_key_val values;; y <- _;; store_item _ (fst kv) y);
    simpl; [discriminate | trivial].
Qed.

Lemma options_dict_prepared self ns :
  options_dict (prepared self ns) (dest self) = options_dict ns (dest self).
Proof.
  unfold prepared, options_dict.
  destruct (getattr ns (dest self) VNone) eqn:G; simpl; rewrite ?G; trivial.
  now rewrite getattr_setattr_same.
Qed.

Lemma call_ok_inv self ns values ns1 u :
  run self ns values = (ns1, Ok u) ->
  exists s k v y d,
    values = VStr s /\ split_key_val (VStr s) = Ok (k, v) /\
    load v = Ok y /\ options_dict ns (dest self) = Some d /\
    ns1 = setattr ns (dest self) (VDict (setitem d k y)).
Proof.
  unfold run, call. intro H.
  destruct (split_key_val values) as [[k v]|] eqn:S; simpl in H;
    [|injection H as _ H; discriminate].
  fold load in H.
  destruct (load v) as [y|] eqn:L; simpl in H;
    [|injection H as _ H; discriminate].
  assert (Hs : exists s, values = VStr s).
  { destruct values; try discriminate S. eauto. }
  destruct Hs as [s ->].
  unfold options_dict.
  destruct (getattr ns (dest self) VNone) eqn:G; simpl in H;
    rewrite ?getattr_setattr_same, ?G in H; simpl in H;
    try (injection H as _ H; discriminate).
  - injection H as <- _. rewrite setattr_setattr.
    now exists s, k, v, y, [].
  - injection H as <- _. now exists s, k, v, y, d.
Qed.

End CallFacts.

(** An argument without "=" makes [__call__] raise [ValueError]; the
    namespace is left as it was, except that an unset destination has
    become the empty dict. *)
Theorem call_without_equals yaml_before_0_15 safe_load yml_load self ns s :
  contains "="%char s = false ->
  call yaml_before_0_15 safe_load yml_load self ns (VStr s)
  = ((if is_none (getattr ns (dest self) VNone)
      then setattr ns (dest self) (VDict []) else ns),
     Raise ValueError).
Proof.
  intro H. unfold call. now rewrite (split_key_val_no_equals s H).
Qed.

Lemma call_without_equals_witness :
  call false scalar_load scalar_load option_action [] (VStr "topology.debug")
  = ([("options", VDict [])], Raise ValueError).
Proof.
  apply (call_without_equals false scalar_load scalar_load option_action []
           "topology.debug").
  reflexivity.
Defined.

(** [__call__] reads and writes the destination attribute only: every
    other attribute of the namespace is the same afterwards, whether the
    call returns or raises. *)
Theorem call_keeps_other_attributes yaml_before_0_15 safe_load yml_load
    self ns values name d :
  name <> dest self ->
  getattr (fst (call yaml_before_0_15 safe_load yml_load self ns values))
    name d
  = getattr ns name d.
Proof.
  intro Hne. unfold call.
  assert (P : getattr
                (if is_none (getattr ns (dest self) VNone)
                 then setattr ns (dest self) (VDict []) else ns) name d
              = getattr ns name d).
  { destruct (is_none _); trivial. now apply getattr_setattr_other. }
  destruct (kv <- split_key_val values;; y <- _;; store_item _ (fst kv) y);
    simpl; trivial.
  now rewrite getattr_setattr_other.
Qed.

Lemma call_keeps_other_attributes_witness :
  getattr
    (fst (call false scalar_load scalar_load option_action
            [("name", VStr "wordcount")] (VStr "topology.debug=true")))
    "name" VNone
  = VStr "wordcount".
Proof.
  apply (call_keeps_other_attributes false scalar_load scalar_load
           option_action [("name", VStr "wordcount")]
           (VStr "topology.debug=true") "name" VNone).
  discriminate.
Defined.

(** A call that raises, for whatever reason, leaves the options stored
    so far as they were. *)
Theorem call_failure_keeps_options yaml_before_0_15 safe_load yml_load
    self ns values e :
  snd (call yaml_before_0_15 safe_load yml_load self ns values) = Raise e ->
  options_dict
    (fst (call yaml_before_0_15 safe_load yml_load self ns values))
    (dest self)
  = options_dict ns (dest self).
Proof.
  intro H.
  rewrite (call_raise_namespace _ _ _ _ _ _ _ H).
  apply options_dict_prepared.
Qed.

Lemma call_failure_keeps_options_witness :
  options_dict
    (fst (call false scalar_load (fun _ => Raise ValueError) option_action
            [("options", VDict [(KStr "topology.workers", VInt 2)])]
            (VStr "topology.debug=: :")))
    "options"
  = Some [(KStr "topology.workers", VInt 2)].
Proof.
  apply (call_failure_keeps_options false scalar_load
           (fun _ => Raise ValueError) option_action
           [("options", VDict [(KStr "topology.workers", VInt 2)])]
           (VStr "topology.debug=: :") ValueError).
  reflexivity.
Defined.

(** An occurrence that was stored changes nothing when it is given a
    second time. *)
Theorem call_twice yaml_before_0_15 safe_load yml_load self ns values ns1 :
  call yaml_before_0_15 safe_load yml_load self ns values = (ns1, Ok tt) ->
  call yaml_before_0_15 safe_load yml_load self ns1 values = (ns1, Ok tt).
Proof.
  intro H.
  destruct (call_ok_inv _ _ _ _ _ _ _ _ H)
    as (s & k & v & y & d & -> & Hs & Hy & Hd & ->).
  apply split_key_val_inv in Hs as [-> Hk].
  rewrite (call_stores _ _ _ self _ k v y (setitem d k y)); trivial.
  - now rewrite setattr_setattr, setitem_setitem.
  - apply options_dict_setattr.
Qed.

Lemma call_twice_witness :
  call false scalar_load scalar_load option_action
    [("options", VDict [(KStr "topology.debug", VBool true)])]
    (VStr "topology.debug=true")
  = ([("options", VDict [(KStr "topology.debug", VBool true)])], Ok tt).
Proof.
  apply (call_twice false scalar_load scalar_load option_action []
           (VStr "topology.debug=true")).
  reflexivity.
Defined.

(** A destination that already holds something other than a dict or
    [None] makes a well-formed key=val raise [TypeError], and the
    attribute stays as it was. *)
Theorem call_on_non_dict yaml_before_0_15 safe_load yml_load
    self ns k v y held :
  getattr ns (dest self) VNone = held ->
  held <> VNone -> (forall d, held <> VDict d) ->
  contains "="%char k = false ->
  yaml_load yaml_before_0_15 safe_load yml_load v = Ok y ->
  call yaml_before_0_15 safe_load yml_load self ns (VStr (k ++ "=" ++ v))
  = (ns, Raise TypeError).
Proof.
  intros G Hn Hd Hk Hy. unfold call.
  rewrite (split_key_val_append k v Hk). cbn [bind fst snd].
  rewrite Hy. cbn [bind]. rewrite G.
  destruct held as [| b | z | f | s | l | d0];
    try (now contradiction Hn);
    try (now contradiction (Hd d0));
    cbn [is_none]; rewrite G; reflexivity.
Qed.

Lemma call_on_non_dict_witness :
  call false scalar_load scalar_load option_action
    [("options", VStr "verbose")] (VStr "topology.debug=true")
  = ([("options", VStr "verbose")], Raise TypeError).
Proof.
  apply (call_on_non_dict false scalar_load scalar_load option_action
           [("options", VStr "verbose")] "topology.debug" "true"
           (VBool true) (VStr "verbose")).
  - reflexivity.
  - discriminate.
  - discriminate.
  - reflexivity.
  - reflexivity.
Defined.

(** ** The registered flags *)








(** ** [resolve_options]: when it returns and when it raises *)

Lemma options_of_get (env opts : dict) :
  options_of env = Some opts ->
  get_default env "options" (VDict []) = VDict opts.
Proof.
  unfold options_of.
  destruct (get_default env "options" (VDict [])); try discriminate.
  now intros [= ->].
Qed.

Lemma python_path_step_ok env name (d : dict) :
  truthy (get_default env "use_virtualenv" (VBool true)) = false \/
  (exists root, lookup env "virtualenv_root" = Some (VStr root)) ->
  exists d', python_path_step env name d = Ok d'.
Proof.
  unfold python_path_step, getitem.
  intros [-> | [root ->]]; [eauto|].
  destruct (truthy _); simpl; eauto.
Qed.

(** With [local_only] set, [resolve_options] returns a dictionary for
    every well-formed configuration: the options of the environment, the
    topology's config and the CLI options dicts (or no CLI options), the
    log section a dict when there is one, and the virtualenv either
    switched off or rooted at a string. *)
Theorem resolve_options_local_returns {Py : StrMethods} gsw cli env tc name c t opts l :
  py_or cli (VDict []) = VDict c ->
  config tc = VDict t ->
  options_of env = Some opts ->
  get_default env "log" (VDict []) = VDict l ->
  truthy (get_default env "use_virtualenv" (VBool true)) = false \/
  (exists root, lookup env "virtualenv_root" = Some (VStr root)) ->
  exists r, resolve_options gsw cli env tc name true = Ok r.
Proof.
  intros Hc Ht Ho Hl Hv.
  unfold resolve_options, merged_tiers, environment_tier.
  rewrite (options_of_get _ _ Ho). cbn [dict_update bind].
  destruct (python_path_step_ok env name (update [] opts) Hv) as [d ->].
  cbn [bind]. rewrite (logging_step_dict l env d Hl). cbn [bind].
  rewrite Ht, Hc. cbn [dict_update bind].
  unfold workers_list_step. cbn [negb bind fst snd]. eauto.
Qed.

Lemma resolve_options_local_returns_witness :
  exists r,
    resolve_options no_nimbus VNone logging_env no_config "wordcount" true
    = Ok r.
Proof.
  apply (resolve_options_local_returns no_nimbus VNone logging_env no_config
           "wordcount" [] [] []
           [(KStr "path", VStr "/var/log/storm");
            (KStr "level", VStr "INFO");
            (KStr "max_bytes", VInt 1000000)]);
    try reflexivity.
  left. reflexivity.
Defined.

(** A "log" entry of the environment that is not a dict makes
    [resolve_options] raise [AttributeError], once the options and the
    virtualenv entries are in order. *)
Theorem log_section_must_be_dict {Py : StrMethods} gsw cli env tc name local opts v :
  options_of env = Some opts ->
  truthy (get_default env "use_virtualenv" (VBool true)) = false \/
  (exists root, lookup env "virtualenv_root" = Some (VStr root)) ->
  lookup env "log" = Some v ->
  (forall l, v <> VDict l) ->
  resolve_options gsw cli env tc name local = Raise AttributeError.
Proof.
  intros Ho Hv Hl Hn.
  unfold resolve_options, merged_tiers, environment_tier.
  rewrite (options_of_get _ _ Ho). cbn [dict_update bind].
  destruct (python_path_step_ok env name (update [] opts) Hv) as [d ->].
  cbn [bind]. unfold logging_step, get_default. rewrite Hl.
  destruct v as [| b | z | f | s | items | l0]; try reflexivity.
  now contradiction (Hn l0).
Qed.

Lemma log_section_must_be_dict_witness :
  resolve_options three_workers VNone
    [(KStr "use_virtualenv", VBool false);
     (KStr "log", VStr "/var/log/storm")]
    no_config "wordcount" true
  = Raise AttributeError.
Proof.
  apply (log_section_must_be_dict three_workers VNone
           [(KStr "use_virtualenv", VBool false);
            (KStr "log", VStr "/var/log/storm")]
           no_config "wordcount" true [] (VStr "/var/log/storm")).
  - reflexivity.
  - left. reflexivity.
  - reflexivity.
  - discriminate.
Defined.

(** With the virtualenv in use, a "virtualenv_root" that is not a string
    makes [resolve_options] raise [TypeError]. *)
Theorem virtualenv_root_must_be_str {Py : StrMethods} gsw cli env tc name local opts v :
  options_of env = Some opts ->
  truthy (get_default env "use_virtualenv" (VBool true)) = true ->
  lookup env "virtualenv_root" = Some v ->
  isinstance_str v = false ->
  resolve_options gsw cli env tc name local = Raise TypeError.
Proof.
  intros Ho Hu Hr Hs.
  unfold resolve_options, merged_tiers, environment_tier.
  rewrite (options_of_get _ _ Ho). cbn [dict_update bind].
  unfold python_path_step, getitem. rewrite Hu, Hr. cbn [bind].
  destruct v; try discriminate Hs; reflexivity.
Qed.

Lemma virtualenv_root_must_be_str_witness :
  resolve_options three_workers VNone
    [(KStr "virtualenv_root", VNone)] no_config "wordcount" true
  = Raise TypeError.
Proof.
  apply (virtualenv_root_must_be_str three_workers VNone
           [(KStr "virtualenv_root", VNone)] no_config "wordcount" true
           [] VNone);
    reflexivity.
Defined.

(** ** [resolve_options]: the workers lookup *)

(** When some tier sets a truthy "storm.workers.list", Nimbus is not
    asked: the outcome is the same whatever the lookup would answer. *)
Theorem workers_list_given_no_lookup {Py : StrMethods}
    (lookup1 lookup2 : dict -> result value) cli env tc name local m :
  merged_tiers cli env tc name = Ok m ->
  truthy (get m "storm.workers.list") = true ->
  resolve_options lookup1 cli env tc name local =
  resolve_options lookup2 cli env tc name local.
Proof.
  intros Hm Ht. unfold resolve_options. rewrite Hm. cbn [bind].
  unfold workers_list_step.
  rewrite get_debug_step_other by key_neq. now rewrite Ht.
Qed.

Lemma workers_list_given_no_lookup_witness :
  resolve_options three_workers VNone (listed_env "10.0.0.1,10.0.0.2")
    no_config "wordcount" false =
  resolve_options no_nimbus VNone (listed_env "10.0.0.1,10.0.0.2")
    no_config "wordcount" false.
Proof.
  eapply (workers_list_given_no_lookup three_workers no_nimbus VNone
            (listed_env "10.0.0.1,10.0.0.2") no_config "wordcount" false).
  - vm_compute. reflexivity.
  - reflexivity.
Defined.

(** Without [local_only] and without a truthy "storm.workers.list" in
    any tier, a lookup that fails makes [resolve_options] fail with the
    same exception. *)
Theorem workers_lookup_failure {Py : StrMethods} gsw cli env tc name m e :
  merged_tiers cli env tc name = Ok m ->
  truthy (get m "storm.workers.list") = false ->
  gsw env = Raise e ->
  resolve_options gsw cli env tc name false = Raise e.
Proof.
  intros Hm Ht He. unfold resolve_options. rewrite Hm. cbn [bind].
  unfold workers_list_step.
  rewrite get_debug_step_other by key_neq. rewrite Ht. cbn [negb].
  now rewrite He.
Qed.

Lemma workers_lookup_failure_witness :
  resolve_options no_nimbus VNone plain_env no_config "wordcount" false
  = Raise (ExternalError "nimbus").
Proof.
  eapply (workers_lookup_failure no_nimbus VNone plain_env no_config
            "wordcount").
  - vm_compute. reflexivity.
  - reflexivity.
  - reflexivity.
Defined.

(** ** [resolve_options]: derived entries *)

Section Derived.

Context {Py : StrMethods}.

Variable get_storm_workers : dict -> result value.

(** An entry of the environment tier that neither the topology nor the
    CLI sets and no later step writes reaches the result. *)
Lemma lookup_environment_entry cli env tc name local c t opts r (k : key) v :
  py_or cli (VDict []) = VDict c ->
  config tc = VDict t ->
  options_of env = Some opts ->
  resolve_options get_storm_workers cli env tc name local = Ok r ->
  (forall m, rewritten_after_merge local m k = false) ->
  lookup t k = None -> lookup c k = None ->
  environment_default env name k = Some v ->
  lookup r k = Some v.
Proof.
  intros Hc Ht Ho H Hrw Lt Lc Hv.
  destruct (resolve_options_inv _ _ _ _ _ _ _ H) as (m & _ & _ & Hm & _).
  rewrite (lookup_resolved _ _ _ _ _ _ _ _ _ _ k Hc Ht Hm H (Hrw m)).
  destruct (merged_tiers_inv _ _ _ _ _ _ _ Hc Ht Hm) as (e & He & ->).
  rewrite !lookup_update_absent by assumption.
  rewrite (lookup_environment_tier _ _ _ _ k Ho He).
  now rewrite Hv.
Qed.

End Derived.

(** With the virtualenv in use and rooted at the string [root], the
    resolved "topology.python.path" is root/topology_name/bin/python,
    whatever the environment's options say, unless the topology or the
    CLI set the key. *)
Theorem python_path_value {Py : StrMethods} gsw cli env tc name local c t opts r root :
  py_or cli (VDict []) = VDict c ->
  config tc = VDict t ->
  options_of env = Some opts ->
  resolve_options gsw cli env tc name local = Ok r ->
  truthy (get_default env "use_virtualenv" (VBool true)) = true ->
  lookup env "virtualenv_root" = Some (VStr root) ->
  lookup t "topology.python.path" = None ->
  lookup c "topology.python.path" = None ->
  lookup r "topology.python.path"
  = Some (VStr (root ++ "/" ++ name ++ "/bin/python")).
Proof.
  intros Hc Ht Ho H Hu Hr Lt Lc.
  apply (lookup_environment_entry gsw cli env tc name local c t opts r
           "topology.python.path" _ Hc Ht Ho H); trivial.
  unfold environment_default, virtualenv_default, python_path_default.
  destruct (get_default env "log" (VDict [])); cbn;
    rewrite Hu, Hr; reflexivity.
Qed.

Lemma python_path_value_witness :
  exists r,
    resolve_options three_workers VNone
      [(KStr "virtualenv_root", VStr "/data/virtualenvs");
       (KStr "options",
        VDict [(KStr "topology.python.path", VStr "/usr/bin/python")])]
      no_config "wordcount" true = Ok r /\
    lookup r "topology.python.path"
    = Some (VStr "/data/virtualenvs/wordcount/bin/python").
Proof.
  eexists. split; [vm_compute; reflexivity|].
  apply (python_path_value three_workers VNone
           [(KStr "virtualenv_root", VStr "/data/virtualenvs");
            (KStr "options",
             VDict [(KStr "topology.python.path", VStr "/usr/bin/python")])]
           no_config "wordcount" true [] []
           [(KStr "topology.python.path", VStr "/usr/bin/python")]
           _ "/data/virtualenvs");
    reflexivity.
Defined.

(** Each of the VIRTUALENV_OPTIONS that the environment config holds is
    in the result with the environment's value, whatever the
    environment's options say, unless the topology or the CLI set the
    key. *)
Theorem virtualenv_options_copied {Py : StrMethods} gsw cli env tc name local c t opts r
    option v :
  py_or cli (VDict []) = VDict c ->
  config tc = VDict t ->
  options_of env = Some opts ->
  resolve_options gsw cli env tc name local = Ok r ->
  In option VIRTUALENV_OPTIONS ->
  lookup env option = Some v ->
  lookup t option = None ->
  lookup c option = None ->
  lookup r option = Some v.
Proof.
  intros Hc Ht Ho H Hin Hv Lt Lc.
  apply (lookup_environment_entry gsw cli env tc name local c t opts r
           option _ Hc Ht Ho H); trivial.
  - intro m. unfold VIRTUALENV_OPTIONS in Hin. simpl in Hin.
    destruct Hin as [<- | [<- | [<- | [<- | [<- | []]]]]]; reflexivity.
  - unfold environment_default, virtualenv_default.
    unfold VIRTUALENV_OPTIONS in Hin. simpl in Hin.
    destruct Hin as [<- | [<- | [<- | [<- | [<- | []]]]]];
      cbn; rewrite Hv; reflexivity.
Qed.

Lemma virtualenv_options_copied_witness :
  exists r,
    resolve_options three_workers VNone
      [(KStr "use_virtualenv", VBool false);
       (KStr "virtualenv_flags", VStr "-p python3");
       (KStr "options", VDict [(KStr "virtualenv_flags", VStr "-p python2")])]
      no_config "wordcount" true = Ok r /\
    lookup r "virtualenv_flags" = Some (VStr "-p python3").
Proof.
  eexists. split; [vm_compute; reflexivity|].
  apply (virtualenv_options_copied three_workers VNone
           [(KStr "use_virtualenv", VBool false);
            (KStr "virtualenv_flags", VStr "-p python3");
            (KStr "options",
             VDict [(KStr "virtualenv_flags", VStr "-p python2")])]
           no_config "wordcount" true [] []
           [(KStr "virtualenv_flags", VStr "-p python2")]
           _ "virtualenv_flags" (VStr "-p python3"));
    try reflexivity.
  right. right. left. reflexivity.
Defined.

(** When the environment names a "user" and neither the topology nor the
    CLI sets "sudo_user", the resolved "sudo_user" is that user. *)
Theorem sudo_user_is_ssh_user {Py : StrMethods} gsw cli env tc name local c t r user :
  py_or cli (VDict []) = VDict c ->
  config tc = VDict t ->
  lookup env "user" = Some user ->
  lookup c "sudo_user" = None ->
  lookup t "sudo_user" = None ->
  resolve_options gsw cli env tc name local = Ok r ->
  lookup r "sudo_user" = Some user.
Proof.
  intros Hc Ht Hu Lc Lt H.
  rewrite (sudo_user_from_environment gsw cli env tc name local c t r
             Hc Ht Lc Lt H).
  unfold get_default. now rewrite Hu.
Qed.

Lemma sudo_user_is_ssh_user_witness :
  exists r,
    resolve_options three_workers VNone
      [(KStr "use_virtualenv", VBool false); (KStr "user", VStr "storm")]
      no_config "wordcount" true = Ok r /\
    lookup r "sudo_user" = Some (VStr "storm").
Proof.
  eexists. split; [vm_compute; reflexivity|].
  apply (sudo_user_is_ssh_user three_workers VNone
           [(KStr "use_virtualenv", VBool false); (KStr "user", VStr "storm")]
           no_config "wordcount" true [] [] _ (VStr "storm"));
    reflexivity.
Defined.

(** With the virtualenv switched off the topology name plays no part:
    two names give the same outcome. *)
Theorem topology_name_unused {Py : StrMethods} gsw cli env tc name1 name2 local :
  truthy (get_default env "use_virtualenv" (VBool true)) = false ->
  resolve_options gsw cli env tc name1 local =
  resolve_options gsw cli env tc name2 local.
Proof.
  intro H. unfold resolve_options, merged_tiers, environment_tier.
  destruct (dict_update [] (get_default env "options" (VDict [])));
    cbn [bind]; trivial.
  now rewrite !python_path_step_skipped.
Qed.

Lemma topology_name_unused_witness :
  resolve_options three_workers VNone plain_env no_config "wordcount" false =
  resolve_options three_workers VNone plain_env no_config "pixelcount" false.
Proof.
  apply (topology_name_unused three_workers VNone plain_env no_config
           "wordcount" "pixelcount" false).
  reflexivity.
Defined.

(** ** [resolve_options]: what every result holds *)

Lemma lookup_not_none (d : dict) (k : key) :
  is_none (get d k) = false ->
  exists v, lookup d k = Some v /\ v <> VNone.
Proof.
  unfold get, get_default. destruct (lookup d k) as [v|]; try discriminate.
  intro H. exists v. split; trivial. intros ->. discriminate.
Qed.

Lemma lookup_default_count_set (k : string) (n : Z) (d : dict) :
  exists v, lookup (default_count k n d) k = Some v /\ v <> VNone.
Proof.
  rewrite lookup_default_count_same.
  destruct (is_none (get d k)) eqn:E.
  - exists (VInt n). split; [trivial | discriminate].
  - now apply lookup_not_none.
Qed.

(** Every dictionary [resolve_options] returns holds the four keys
    "storm.workers.list", "topology.acker.executors", "topology.workers"
    and "sudo_user", and the two counts are never [None]. *)
Theorem resolved_always_holds {Py : StrMethods} gsw cli env tc name local r :
  resolve_options gsw cli env tc name local = Ok r ->
  (exists w, lookup r "storm.workers.list" = Some w) /\
  (exists a, lookup r "topology.acker.executors" = Some a /\ a <> VNone) /\
  (exists n, lookup r "topology.workers" = Some n /\ n <> VNone) /\
  (exists u, lookup r "sudo_user" = Some u).
Proof.
  intro H.
  apply resolve_options_inv in H as (m & d & n & Hm & Hw & ->).
  destruct (workers_list_step_spec _ _ _ _ _ _ Hw) as (w & Lw & _).
  split; [|split; [|split]].
  - exists w. rewrite lookup_setdefault_other by key_neq.
    now rewrite !lookup_default_count_other by key_neq.
  - rewrite lookup_setdefault_other by key_neq.
    rewrite lookup_default_count_other by key_neq.
    apply lookup_default_count_set.
  - rewrite lookup_setdefault_other by key_neq.
    apply lookup_default_count_set.
  - rewrite lookup_setdefault_same.
    destruct (lookup _ "sudo_user"); eauto.
Qed.

Lemma resolved_always_holds_witness :
  exists r,
    resolve_options three_workers
      (VDict [(KStr "topology.workers", VNone)])
      plain_env no_config "wordcount" false = Ok r /\
    (exists n, lookup r "topology.workers" = Some n /\ n <> VNone).
Proof.
  eexists. split; [vm_compute; reflexivity|].
  apply (resolved_always_holds three_workers
           (VDict [(KStr "topology.workers", VNone)])
           plain_env no_config "wordcount" false).
  reflexivity.
Defined.

(** ** [resolve_options]: counting the workers of a string *)

Lemma length_split (sep : ascii) (s : string) :
  List.length (split sep s) = S (occurrences sep s).
Proof.
  induction s as [|c r IH]; simpl; trivial.
  destruct (Ascii.eqb c sep); simpl.
  - now rewrite IH.
  - destruct (split sep r) as [|h t] eqn:E; simpl in *; congruence.
Qed.

(** A non-empty "storm.workers.list" string counts one worker more than
    it has commas, an empty name between or after commas included; that
    number is the default of both counts. *)
Theorem workers_of_comma_string {Py : StrMethods} gsw cli env tc name m r s :
  merged_tiers cli env tc name = Ok m ->
  resolve_options gsw cli env tc name false = Ok r ->
  get m "storm.workers.list" = VStr s -> s <> "" ->
  (lookup m "topology.acker.executors" = None \/
   lookup m "topology.acker.executors" = Some VNone ->
   lookup r "topology.acker.executors"
   = Some (VInt (Z.of_nat (S (occurrences ","%char s))))) /\
  (lookup m "topology.workers" = None \/
   lookup m "topology.workers" = Some VNone ->
   lookup r "topology.workers"
   = Some (VInt (Z.of_nat (S (occurrences ","%char s))))).
Proof.
  intros Hm H Hs Hne.
  apply resolve_options_inv in H as (m' & d & n & Hm' & Hw & ->).
  rewrite Hm in Hm'. injection Hm' as <-.
  destruct (workers_list_step_spec _ _ _ _ _ _ Hw) as (w & Lw & _ & Hremote).
  destruct (Hremote eq_refl) as (Hlen & _ & Hsplit & _).
  rewrite get_debug_step_other in Hsplit by key_neq.
  rewrite (Hsplit s Hs Hne) in Hlen. cbn [py_len] in Hlen.
  rewrite length_map, length_split in Hlen.
  set (count := Z.of_nat (S (occurrences ","%char s))) in *.
  injection Hlen as <-.
  assert (Hd : forall k', k' <> KStr "storm.workers.list" ->
                          lookup d k' = lookup (debug_step m) k').
  { intros k' K. apply (lookup_workers_list_step_other _ _ _ _ _ _ _ Hw K). }
  split; intro Habsent.
  - rewrite lookup_setdefault_other by key_neq.
    rewrite lookup_default_count_other by key_neq.
    rewrite lookup_default_count_same.
    assert (G : get d "topology.acker.executors"
                = get m "topology.acker.executors").
    { apply get_eq. rewrite Hd by key_neq.
      apply lookup_debug_step_other. key_neq. }
    now rewrite G, is_none_get.
  - rewrite lookup_setdefault_other by key_neq.
    rewrite lookup_default_count_same.
    assert (G : get (default_count "topology.acker.executors" count d)
                  "topology.workers" = get m "topology.workers").
    { apply get_eq. rewrite lookup_default_count_other by key_neq.
      rewrite Hd by key_neq. apply lookup_debug_step_other. key_neq. }
    now rewrite G, is_none_get.
Qed.

Lemma workers_of_comma_string_witness :
  exists r,
    resolve_options no_nimbus VNone (listed_env "10.0.0.1,10.0.0.2,")
      no_config "wordcount" false = Ok r /\
    lookup r "topology.acker.executors" = Some (VInt 3) /\
    lookup r "topology.workers" = Some (VInt 3).
Proof.
  eexists. split; [vm_compute; reflexivity|].
  pose proof
    (fun m Hm r H =>
       workers_of_comma_string no_nimbus VNone
         (listed_env "10.0.0.1,10.0.0.2,") no_config "wordcount" m r
         "10.0.0.1,10.0.0.2," Hm H) as P.
  destruct (P _ eq_refl _ eq_refl eq_refl) as (Ha & Hk); [discriminate|].
  split; [apply Ha | apply Hk]; left; reflexivity.
Defined.

(** Without [local_only], a truthy "storm.workers.list" that is neither
    a string nor a collection (a number, or [True]) makes
    [resolve_options] raise [TypeError] when its length is taken. *)
Theorem workers_list_must_be_sized {Py : StrMethods} gsw cli env tc name m v :
  merged_tiers cli env tc name = Ok m ->
  lookup m "storm.workers.list" = Some v ->
  truthy v = true ->
  py_len v = Raise TypeError ->
  resolve_options gsw cli env tc name false = Raise TypeError.
Proof.
  intros Hm Hv Ht Hlen. unfold resolve_options. rewrite Hm. cbn [bind].
  unfold workers_list_step. cbn [negb].
  assert (L : lookup (debug_step m) "storm.workers.list" = Some v).
  { now rewrite lookup_debug_step_other by key_neq. }
  unfold get, get_default, getitem. rewrite L, Ht. cbn [negb bind].
  destruct v; try discriminate Hlen; cbn [bind]; rewrite L; reflexivity.
Qed.

Lemma workers_list_must_be_sized_witness :
  resolve_options three_workers
    (VDict [(KStr "storm.workers.list", VInt 3)])
    plain_env no_config "wordcount" false
  = Raise TypeError.
Proof.
  eapply (workers_list_must_be_sized three_workers
            (VDict [(KStr "storm.workers.list", VInt 3)])
            plain_env no_config "wordcount" _ (VInt 3)).
  - vm_compute. reflexivity.
  - reflexivity.
  - reflexivity.
  - reflexivity.
Defined.

(** ** [__call__] on a value that is not a string *)

(** The constructor accepts every [nargs] but 0, yet [__call__] takes a
    single string: a value that is not a [str], such as the list argparse
    hands over under [nargs] "+", "*" or a number, makes it raise
    [AttributeError], after an unset destination has become the empty
    dict. *)
Theorem call_on_non_str yaml_before_0_15 safe_load yml_load self ns values :
  (forall s, values <> VStr s) ->
  call yaml_before_0_15 safe_load yml_load self ns values
  = ((if is_none (getattr ns (dest self) VNone)
      then setattr ns (dest self) (VDict []) else ns),
     Raise AttributeError).
Proof.
  intro H. unfold call.
  destruct values as [| b | z | f | s | l | d]; try reflexivity.
  now contradiction (H s).
Qed.

Lemma call_on_non_str_witness :
  exists self,
    init (VList [VStr "-o"; VStr "--option"]) "options" (VStr "+") VNone
         VNone None VNone (VBool false) VNone VNone = Ok self /\
    call false scalar_load scalar_load self []
      (get_values self ["topology.debug=true"])
    = ([("options", VDict [])], Raise AttributeError).
Proof.
  eexists. split; [reflexivity|].
  apply (call_on_non_str false scalar_load scalar_load
           (mkAction (VList [VStr "-o"; VStr "--option"]) "options"
              (VStr "+") VNone VNone None VNone (VBool false) VNone VNone)
           [] (VList [VStr "topology.debug=true"])).
  discriminate.
Defined.
